(** * H9K-Raindrop-MCP: the resilient Raindrop.io client and the tool dispatcher

    A shallow embedding of the retrying client, [raindrop-client.ts] (the
    axios wrapper with its response interceptor, the error classification
    and the payload builders of the fourteen operations), and of the
    server, [index.ts] (the two MCP request handlers, the shutdown sequence
    and the process-level error hooks), followed by the properties the
    specification states about them.  Of the two versions of each file in
    the repository the embedding follows the one with the retry logic and
    the shutdown flag.

    Conventions of the embedding:
    - a JavaScript value is a [Value]; numbers are integers ([Z]), which is
      what identifiers, page numbers and HTTP statuses are, and an integer
      is printed as the double nearest to it is;
    - an object literal is an association list in insertion order; a
      request body is the value a method hands to axios (its serialisation
      is axios's business);
    - effects (HTTP attempts, [setTimeout] delays, [console.error] lines) are
      recorded in a trace that is threaded through a small state-and-exception
      monad; the remote API is a function from the attempt number and the
      request to the outcome of that attempt. *)

From Stdlib Require Import String Ascii ZArith List Bool Lia.
From Stdlib Require Import DecimalString.
Import ListNotations.

Set Warnings "-register-all".
Local Open Scope string_scope.
Local Open Scope Z_scope.

(* ================================================================== *)
(** ** JavaScript values *)
(* ================================================================== *)

Module JS.

Inductive Value : Type :=
| VUndefined
| VNull
| VBool (b : bool)
| VNum (n : Z)
| VStr (s : string)
| VArr (elems : list Value)
| VObj (props : list (string * Value)).

(** The own properties of an object, in insertion order. *)
Definition Obj : Type := list (string * Value).

(** [o.k]: the value of property [k], [undefined] when [o] has none. *)
Fixpoint get (k : string) (o : Obj) : Value :=
  match o with
  | [] => VUndefined
  | (k', v) :: o' => if String.eqb k k' then v else get k o'
  end.

(** [o.k = v]: overwrite in place, or append a new property. *)
Fixpoint set (k : string) (v : Value) (o : Obj) : Obj :=
  match o with
  | [] => [(k, v)]
  | (k', v') :: o' =>
      if String.eqb k k' then (k, v) :: o' else (k', v') :: set k v o'
  end.

(** [const { k, ...rest } = o]: the properties of [o] other than [k]. *)
Fixpoint without (k : string) (o : Obj) : Obj :=
  match o with
  | [] => []
  | (k', v) :: o' =>
      if String.eqb k k' then without k o' else (k', v) :: without k o'
  end.

Definition keys (o : Obj) : list string := map fst o.

(** [v !== undefined] *)
Definition defined (v : Value) : bool :=
  match v with VUndefined => false | _ => true end.

(** ToBoolean: what [if (v)], [v || w] and [v && w] test. *)
Definition truthy (v : Value) : bool :=
  match v with
  | VUndefined | VNull => false
  | VBool b => b
  | VNum n => negb (n =? 0)
  | VStr s => negb (String.eqb s "")
  | VArr _ | VObj _ => true
  end.

(** [a || b] *)
Definition or_else (a b : Value) : Value := if truthy a then a else b.

(** [v !== 0] *)
Definition is_not_zero (v : Value) : bool :=
  match v with VNum 0 => false | _ => true end.

(** The decimal digits of an integer. *)
Definition decimal (n : Z) : string :=
  NilZero.string_of_int (Z.to_int n).

(** The Number that the integer [m >= 0] denotes: the nearest double,
    of a significand of 53 bits, ties going to the even one.  Every
    integer below [2^53] is its own double; [2^1024] stands for
    [Infinity]. *)
Definition to_double (m : Z) : Z :=
  let b := Z.log2 m in
  if b <? 53 then m
  else
    let ulp := 2 ^ (b - 52) in
    let q := m / ulp in
    let r := m mod ulp in
    if 2 * r <? ulp then q * ulp
    else if ulp <? 2 * r then (q + 1) * ulp
    else if Z.even q then q * ulp else (q + 1) * ulp.

(** The integer of the fewest significant digits that denotes the
    double [x], which has [d] digits: tried with [k] significant digits,
    then [k + 1], ...; of two candidates the nearer one, of two equally
    near ones the even one. *)
Fixpoint shortest (x d k : Z) (fuel : nat) : Z :=
  match fuel with
  | O => x
  | S fuel' =>
      let scale := 10 ^ (d - k) in
      let lo := x / scale * scale in
      let hi := lo + scale in
      let lo_ok := to_double lo =? x in
      let hi_ok := to_double hi =? x in
      if lo_ok && hi_ok then
        if x - lo <? hi - x then lo
        else if hi - x <? x - lo then hi
        else if Z.even (lo / scale) then lo else hi
      else if lo_ok then lo
      else if hi_ok then hi
      else shortest x d (k + 1) fuel'
  end.

Fixpoint strip_zeros (digits : list ascii) : list ascii :=
  match digits with
  | "0"%char :: rest => strip_zeros rest
  | _ => digits
  end.

(** Number::toString of a double [x >= 0] that is an integer: its
    shortest digits, padded with zeros up to 21 digits, in exponent
    notation beyond. *)
Definition integer_to_string (x : Z) : string :=
  let d := Z.of_nat (String.length (decimal x)) in
  let digits := decimal (shortest x d 1 (Z.to_nat d)) in
  let n := Z.of_nat (String.length digits) in
  if n <=? 21 then digits
  else
    match rev (strip_zeros (rev (list_ascii_of_string digits))) with
    | [] => digits
    | first :: rest =>
        String first
          (match rest with
           | [] => ""
           | _ :: _ => "." ++ string_of_list_ascii rest
           end)
        ++ "e+" ++ decimal (n - 1)
    end.

(** Number::toString for an integer. *)
Definition number_to_string (n : Z) : string :=
  let x := to_double (Z.abs n) in
  (if n <? 0 then "-" else "")
  ++ (if 2 ^ 1024 <=? x then "Infinity" else integer_to_string x).

(** ToString, as a template literal applies it to [${v}]; an object is
    one that holds no property [toString] of its own. *)
Fixpoint ToString (v : Value) : string :=
  match v with
  | VUndefined => "undefined"
  | VNull => "null"
  | VBool true => "true"
  | VBool false => "false"
  | VNum n => number_to_string n
  | VStr s => s
  | VArr elems =>
      (fix join (l : list Value) : string :=
         match l with
         | [] => ""
         | x :: rest =>
             let sx := match x with
                       | VUndefined | VNull => ""
                       | _ => ToString x
                       end in
             match rest with
             | [] => sx
             | _ :: _ => sx ++ "," ++ join rest
             end
         end) elems
  | VObj _ => "[object Object]"
  end.

(** [v?.k] on a response body: [undefined] for a nullish [v] and for a
    value that has no own property [k]. *)
Definition opt_get (v : Value) (k : string) : Value :=
  match v with
  | VObj o => get k o
  | _ => VUndefined
  end.

End JS.
Import JS.

(* ================================================================== *)
(** ** Requests, responses and the trace of effects *)
(* ================================================================== *)

(** The axios request configuration: the instance defaults merged with what
    a call supplies, and the retry counter the interceptor stashes on it. *)
Record AxiosRequestConfig : Type := mkRequestConfig {
  method : string;
  url : string;
  baseURL : string;
  timeout : Z;
  headers : Obj;
  params : Value;
  data : Value;
  __retryCount : option nat
}.

Record AxiosResponse : Type := mkResponse {
  status : Z;
  body : Value          (* [response.data] *)
}.

Record AxiosError : Type := mkAxiosError {
  message : string;
  config : option AxiosRequestConfig;
  response : option AxiosResponse
}.

(** What becomes of one call of the adapter.  The remote end fulfils the
    HTTP attempt or rejects it; a rejection carries the error message and
    the response when one was received (none for a timeout, a reset, a
    DNS failure), and axios attaches the request configuration to the
    error.  [Unsent] is a call that fails before any request leaves (the
    request could not be built): the error has neither response nor
    configuration. *)
Inductive Outcome : Type :=
| Fulfilled (r : AxiosResponse)
| Rejected (msg : string) (resp : option AxiosResponse)
| Unsent (msg : string).

(** Thrown JavaScript errors: [new Error(message)] and the engine's
    TypeError for a property read on [undefined]. *)
Inductive Exn : Type :=
| JsError (msg : string)
| JsTypeError (property : string).

Inductive Event : Type :=
| EvRequest (c : AxiosRequestConfig)    (* one HTTP attempt *)
| EvDelay (ms : Z)                      (* [await delay(ms)] *)
| EvLog (line : string).                (* [console.error(line)] *)

Definition World : Type := list Event.

(** The HTTP attempts of a trace, oldest first. *)
Fixpoint requests (w : World) : list AxiosRequestConfig :=
  match w with
  | [] => []
  | EvRequest c :: w' => c :: requests w'
  | _ :: w' => requests w'
  end.

(** The backoff delays of a trace, oldest first. *)
Fixpoint delays (w : World) : list Z :=
  match w with
  | [] => []
  | EvDelay ms :: w' => ms :: delays w'
  | _ :: w' => delays w'
  end.

Definition attempts (w : World) : nat := length (requests w).

(** *** The monad: a trace, exceptions, and [None] for a model that ran
    out of fuel. *)

Inductive Completion (A : Type) : Type :=
| Return (a : A)
| Throw (e : Exn).
Arguments Return {A} a.
Arguments Throw {A} e.

Definition M (A : Type) : Type := World -> option (Completion A * World).

Definition ret {A : Type} (a : A) : M A := fun w => Some (Return a, w).

Definition throw {A : Type} (e : Exn) : M A := fun w => Some (Throw e, w).

Definition bind {A B : Type} (m : M A) (k : A -> M B) : M B :=
  fun w =>
    match m w with
    | None => None
    | Some (Return a, w') => k a w'
    | Some (Throw e, w') => Some (Throw e, w')
    end.

Definition try_catch {A : Type} (m : M A) (handler : Exn -> M A) : M A :=
  fun w =>
    match m w with
    | None => None
    | Some (Return a, w') => Some (Return a, w')
    | Some (Throw e, w') => handler e w'
    end.

Definition emit (e : Event) : M unit := fun w => Some (Return tt, (w ++ [e])%list).

Notation "x <- m ;; k" := (bind m (fun x => k))
  (at level 61, m at next level, right associativity).
Notation "m ;;; k" := (bind m (fun _ => k))
  (at level 61, right associativity).

(* ================================================================== *)
(** ** The resilient client ([raindrop-client.ts]) *)
(* ================================================================== *)

Record RaindropConfig : Type := mkRaindropConfig {
  apiToken : string;
  baseUrl : option string
}.

Definition RETRY_DELAY_MS : Z := 1000.
Definition REQUEST_TIMEOUT_MS : Z := 30000.

(** [isRetryableError]: no response at all, a 429, or a 5xx. *)
Definition isRetryableError (error : AxiosError) : bool :=
  match response error with
  | None => true
  | Some r =>
      let status := status r in
      (status =? 429) || ((500 <=? status) && (status <? 600))
  end.

Definition set_retryCount (c : AxiosRequestConfig) (n : nat)
  : AxiosRequestConfig :=
  {| method := method c; url := url c; baseURL := baseURL c;
     timeout := timeout c; headers := headers c; params := params c;
     data := data c; __retryCount := Some n |}.

(** [config.__retryCount || 0] *)
Definition retryCount_of (c : AxiosRequestConfig) : nat :=
  match __retryCount c with
  | Some n => n
  | None => 0%nat
  end.

Section Client.

(** The retry budget.  The source fixes it as the module constant
    [MAX_RETRIES = 3] (see [MAX_RETRIES] below); the client is written
    over an arbitrary budget so that statements can range over it. *)
Variable retry_budget : nat.

(** The remote API: what becomes of the call of the adapter that follows
    [n] HTTP attempts (counted over the whole trace), for the request
    that is handed to it. *)
Variable remote : nat -> AxiosRequestConfig -> Outcome.

(** The engine's conversion of a string to a number ([None] for NaN). *)
Variable StringToNumber : string -> option Z.

(** The argument of [new RaindropClient(config)]. *)
Variable clientConfig : RaindropConfig.

(** [formatError]: the classified message of a failed call. *)
Definition formatError (error : AxiosError) : string :=
  match response error with
  | None =>
      "Network error: " ++ message error ++
      ". The Raindrop.io API may be temporarily unavailable. DO NOT RETRY - this is a connectivity issue."
  | Some r =>
      let status := status r in
      let data := body r in
      if status =? 400 then
        "Bad request: " ++
        ToString (or_else (or_else (opt_get data "errorMessage")
                                   (opt_get data "error"))
                          (VStr "Invalid parameters provided")) ++
        ". Please check the input values and DO NOT RETRY with the same parameters."
      else if status =? 401 then
        "Authentication failed: Invalid or expired API token. Please check your RAINDROP_API_TOKEN. DO NOT RETRY - user must fix the token."
      else if status =? 403 then
        "Access denied: You do not have permission for this operation. DO NOT RETRY."
      else if status =? 404 then
        "Not found: The requested resource does not exist. It may have been deleted. DO NOT RETRY."
      else if status =? 429 then
        "Rate limited: Too many requests. The server has already retried. Please inform the user to wait before trying again."
      else if 500 <=? status then
        "Raindrop.io server error (" ++ number_to_string status ++
        "): The service is temporarily unavailable. Already retried " ++
        number_to_string (Z.of_nat retry_budget) ++ " times."
      else
        "API error (" ++ number_to_string status ++ "): " ++
        ToString (or_else (or_else (opt_get data "errorMessage")
                                   (opt_get data "error"))
                          (VStr (message error))) ++
        ". DO NOT RETRY."
  end.

(** One call of the adapter with [c]: the request is sent, and the remote
    end decides; or the call fails unsent. *)
Definition dispatchRequest (c : AxiosRequestConfig) (w : World)
  : (AxiosError + AxiosResponse) * World :=
  match remote (attempts w) c with
  | Fulfilled r => (inr r, (w ++ [EvRequest c])%list)
  | Rejected msg resp =>
      (inl {| message := msg; config := Some c; response := resp |},
       (w ++ [EvRequest c])%list)
  | Unsent msg =>
      (inl {| message := msg; config := None; response := None |}, w)
  end.

(** The rejection handler of the response interceptor.  [request] is
    [this.client.request]. *)
Definition onRejected (request : AxiosRequestConfig -> M AxiosResponse)
  (error : AxiosError) : M AxiosResponse :=
  match config error with
  | None => throw (JsError (formatError error))
  | Some config =>
      let retryCount := retryCount_of config in
      if (retryCount <? retry_budget)%nat && isRetryableError error then
        let config := set_retryCount config (retryCount + 1) in
        let backoffDelay := RETRY_DELAY_MS * 2 ^ Z.of_nat retryCount in
        emit (EvLog ("Request failed, retrying in " ++
                     number_to_string backoffDelay ++ "ms (attempt " ++
                     number_to_string (Z.of_nat (retryCount + 1)) ++ "/" ++
                     number_to_string (Z.of_nat retry_budget) ++ ")...")) ;;;
        emit (EvDelay backoffDelay) ;;;
        request config
      else throw (JsError (formatError error))
  end.

(** [this.client.request(config)] with the interceptor installed: the
    fulfilled handler is the identity, the rejected one is [onRejected].
    [fuel] bounds the depth of the recursion through the interceptor. *)
Fixpoint request_fuel (fuel : nat) (c : AxiosRequestConfig) : M AxiosResponse :=
  fun w =>
    match fuel with
    | O => None
    | S fuel' =>
        match dispatchRequest c w with
        | (inr response, w') => Some (Return response, w')
        | (inl error, w') => onRejected (request_fuel fuel') error w'
        end
    end.

Definition request (c : AxiosRequestConfig) : M AxiosResponse :=
  request_fuel (S retry_budget) c.

(** The configuration of a call: what [axios.create] fixed, merged with
    the method, the path, the query parameters and the body. *)
Definition mergeConfig (method url : string) (params data : Value)
  : AxiosRequestConfig :=
  {| method := method;
     url := url;
     baseURL := match baseUrl clientConfig with
                | Some u => if String.eqb u "" then "https://api.raindrop.io/rest/v1" else u
                | None => "https://api.raindrop.io/rest/v1"
                end;
     timeout := REQUEST_TIMEOUT_MS;
     headers := [("Authorization", VStr ("Bearer " ++ apiToken clientConfig));
                 ("Content-Type", VStr "application/json")];
     params := params;
     data := data;
     __retryCount := None |}.

Definition client_get (url : string) (params : Value) : M AxiosResponse :=
  request (mergeConfig "get" url params VUndefined).

Definition client_post (url : string) (data : Value) : M AxiosResponse :=
  request (mergeConfig "post" url VUndefined data).

Definition client_put (url : string) (data : Value) : M AxiosResponse :=
  request (mergeConfig "put" url VUndefined data).

Definition client_delete (url : string) (data : Value) : M AxiosResponse :=
  request (mergeConfig "delete" url VUndefined data).

(** [v.k]: a TypeError on a nullish [v]. *)
Definition member (v : Value) (k : string) : M Value :=
  match v with
  | VUndefined | VNull => throw (JsTypeError k)
  | _ => ret (opt_get v k)
  end.

(** ToNumber, and [v > n] for a number [n]. *)
Definition ToNumber (v : Value) : option Z :=
  match v with
  | VUndefined => None
  | VNull => Some 0
  | VBool b => Some (if b then 1 else 0)
  | VNum n => Some n
  | VStr s => StringToNumber s
  | VArr _ | VObj _ => StringToNumber (ToString v)
  end.

Definition greater_than (v : Value) (n : Z) : bool :=
  match ToNumber v with
  | Some x => n <? x
  | None => false
  end.

(** [v.length] for a truthy [v]. *)
Definition length_of (v : Value) : Value :=
  match v with
  | VArr elems => VNum (Z.of_nat (List.length elems))
  | VStr s => VNum (Z.of_nat (String.length s))
  | VObj o => get "length" o
  | _ => VUndefined
  end.

(** *** Bookmark (raindrop) methods *)

Definition getRaindrop (id : Value) : M Value :=
  response <- client_get ("/raindrop/" ++ ToString id) VUndefined ;;
  member (body response) "item".

(** The path of a search: [`/raindrops/${params.collectionId || 0}`]. *)
Definition searchRaindrops_path (params : Obj) : string :=
  let collectionId := or_else (get "collectionId" params) (VNum 0) in
  "/raindrops/" ++ ToString collectionId.

(** The [queryParams] object of a search. *)
Definition searchRaindrops_query (params : Obj) : Obj :=
  let queryParams : Obj := [] in
  let queryParams :=
    if truthy (get "search" params)
    then set "search" (get "search" params) queryParams else queryParams in
  let queryParams :=
    if truthy (get "sort" params)
    then set "sort" (get "sort" params) queryParams else queryParams in
  let queryParams :=
    if truthy (get "perpage" params)
    then set "perpage" (get "perpage" params) queryParams else queryParams in
  let queryParams :=
    if truthy (get "page" params)
    then set "page" (get "page" params) queryParams else queryParams in
  let queryParams :=
    if truthy (get "tag" params)
       && greater_than (length_of (get "tag" params)) 0
    then set "tag" (get "tag" params) queryParams else queryParams in
  queryParams.

(** [searchRaindrops(params = {})]: [None] is a call without argument. *)
Definition searchRaindrops (params : option Obj) : M Value :=
  let params := match params with Some p => p | None => [] end in
  response <- client_get (searchRaindrops_path params)
                         (VObj (searchRaindrops_query params)) ;;
  items <- member (body response) "items" ;;
  count <- member (body response) "count" ;;
  ret (VObj [("items", items); ("count", count)]).

(** The body [data] that [createRaindrop] posts. *)
Definition createRaindrop_data (params : Obj) : Obj :=
  let data : Obj := [("link", get "link" params); ("pleaseParse", VObj [])] in
  let data :=
    if truthy (get "title" params)
    then set "title" (get "title" params) data else data in
  let data :=
    if truthy (get "excerpt" params)
    then set "excerpt" (get "excerpt" params) data else data in
  let data :=
    if truthy (get "note" params)
    then set "note" (get "note" params) data else data in
  let data :=
    if truthy (get "tags" params)
    then set "tags" (get "tags" params) data else data in
  let data :=
    if defined (get "important" params)
    then set "important" (get "important" params) data else data in
  let collectionId := or_else (get "collectionId" params) (VNum 0) in
  let data :=
    if is_not_zero collectionId
    then set "collection" (VObj [("$id", collectionId)]) data else data in
  data.

Definition createRaindrop (params : Obj) : M Value :=
  response <- client_post "/raindrop" (VObj (createRaindrop_data params)) ;;
  member (body response) "item".

(** The body [data] that [updateRaindrop] puts. *)
Definition updateRaindrop_data (params : Obj) : Obj :=
  let data : Obj := [] in
  let data :=
    if defined (get "title" params)
    then set "title" (get "title" params) data else data in
  let data :=
    if defined (get "excerpt" params)
    then set "excerpt" (get "excerpt" params) data else data in
  let data :=
    if defined (get "note" params)
    then set "note" (get "note" params) data else data in
  let data :=
    if defined (get "tags" params)
    then set "tags" (get "tags" params) data else data in
  let data :=
    if defined (get "important" params)
    then set "important" (get "important" params) data else data in
  let data :=
    if defined (get "collectionId" params)
    then set "collection" (VObj [("$id", get "collectionId" params)]) data
    else data in
  data.

Definition updateRaindrop (id : Value) (params : Obj) : M Value :=
  response <- client_put ("/raindrop/" ++ ToString id)
                         (VObj (updateRaindrop_data params)) ;;
  member (body response) "item".

Definition deleteRaindrop (id : Value) : M unit :=
  client_delete ("/raindrop/" ++ ToString id) VUndefined ;;;
  ret tt.

(** *** Collection methods *)

Definition getCollections : M Value :=
  response <- client_get "/collections" VUndefined ;;
  member (body response) "items".

Definition getCollection (id : Value) : M Value :=
  response <- client_get ("/collection/" ++ ToString id) VUndefined ;;
  member (body response) "item".

(** The body [data] that [createCollection] posts. *)
Definition createCollection_data (params : Obj) : Obj :=
  let data : Obj := [("title", get "title" params)] in
  let data :=
    if truthy (get "description" params)
    then set "description" (get "description" params) data else data in
  let data :=
    if defined (get "public" params)
    then set "public" (get "public" params) data else data in
  let data :=
    if truthy (get "view" params)
    then set "view" (get "view" params) data else data in
  let data :=
    if truthy (get "parent" params)
    then set "parent" (VObj [("$id", get "parent" params)]) data else data in
  data.

Definition createCollection (params : Obj) : M Value :=
  response <- client_post "/collection" (VObj (createCollection_data params)) ;;
  member (body response) "item".

(** The body [data] that [updateCollection] puts. *)
Definition updateCollection_data (params : Obj) : Obj :=
  let data : Obj := [] in
  let data :=
    if defined (get "title" params)
    then set "title" (get "title" params) data else data in
  let data :=
    if defined (get "description" params)
    then set "description" (get "description" params) data else data in
  let data :=
    if defined (get "public" params)
    then set "public" (get "public" params) data else data in
  let data :=
    if defined (get "view" params)
    then set "view" (get "view" params) data else data in
  let data :=
    if defined (get "parent" params)
    then set "parent" (VObj [("$id", get "parent" params)]) data else data in
  data.

Definition updateCollection (id : Value) (params : Obj) : M Value :=
  response <- client_put ("/collection/" ++ ToString id)
                         (VObj (updateCollection_data params)) ;;
  member (body response) "item".

Definition deleteCollection (id : Value) : M unit :=
  client_delete ("/collection/" ++ ToString id) VUndefined ;;;
  ret tt.

(** *** Tag methods *)

Definition getTags : M Value :=
  response <- client_get "/tags" VUndefined ;;
  member (body response) "items".

Definition deleteTag (tagName : Value) : M unit :=
  client_delete "/tag" (VObj [("tags", VArr [tagName])]) ;;;
  ret tt.

Definition renameTag (oldName newName : Value) : M unit :=
  client_put "/tags"
    (VObj [("replace", VArr [VObj [("old", oldName); ("new", newName)]])]) ;;;
  ret tt.

(** *** User methods *)

Definition getUser : M Value :=
  response <- client_get "/user" VUndefined ;;
  member (body response) "user".

(** *** The fourteen operations, as data

    [invoke] runs the method an [Operation] names; a method declared
    [Promise<void>] resolves to [undefined]. *)
Inductive Operation : Type :=
| GetRaindrop (id : Value)
| SearchRaindrops (params : option Obj)
| CreateRaindrop (params : Obj)
| UpdateRaindrop (id : Value) (params : Obj)
| DeleteRaindrop (id : Value)
| GetCollections
| GetCollection (id : Value)
| CreateCollection (params : Obj)
| UpdateCollection (id : Value) (params : Obj)
| DeleteCollection (id : Value)
| GetTags
| DeleteTag (tagName : Value)
| RenameTag (oldName newName : Value)
| GetUser.

Definition invoke (op : Operation) : M Value :=
  match op with
  | GetRaindrop id => getRaindrop id
  | SearchRaindrops params => searchRaindrops params
  | CreateRaindrop params => createRaindrop params
  | UpdateRaindrop id params => updateRaindrop id params
  | DeleteRaindrop id => deleteRaindrop id ;;; ret VUndefined
  | GetCollections => getCollections
  | GetCollection id => getCollection id
  | CreateCollection params => createCollection params
  | UpdateCollection id params => updateCollection id params
  | DeleteCollection id => deleteCollection id ;;; ret VUndefined
  | GetTags => getTags
  | DeleteTag tagName => deleteTag tagName ;;; ret VUndefined
  | RenameTag oldName newName => renameTag oldName newName ;;; ret VUndefined
  | GetUser => getUser
  end.

(** The request an operation hands to [this.client]. *)
Definition request_of (op : Operation) : AxiosRequestConfig :=
  match op with
  | GetRaindrop id => mergeConfig "get" ("/raindrop/" ++ ToString id) VUndefined VUndefined
  | SearchRaindrops params =>
      let params := match params with Some p => p | None => [] end in
      mergeConfig "get" (searchRaindrops_path params)
                  (VObj (searchRaindrops_query params)) VUndefined
  | CreateRaindrop params =>
      mergeConfig "post" "/raindrop" VUndefined (VObj (createRaindrop_data params))
  | UpdateRaindrop id params =>
      mergeConfig "put" ("/raindrop/" ++ ToString id) VUndefined
                  (VObj (updateRaindrop_data params))
  | DeleteRaindrop id =>
      mergeConfig "delete" ("/raindrop/" ++ ToString id) VUndefined VUndefined
  | GetCollections => mergeConfig "get" "/collections" VUndefined VUndefined
  | GetCollection id =>
      mergeConfig "get" ("/collection/" ++ ToString id) VUndefined VUndefined
  | CreateCollection params =>
      mergeConfig "post" "/collection" VUndefined (VObj (createCollection_data params))
  | UpdateCollection id params =>
      mergeConfig "put" ("/collection/" ++ ToString id) VUndefined
                  (VObj (updateCollection_data params))
  | DeleteCollection id =>
      mergeConfig "delete" ("/collection/" ++ ToString id) VUndefined VUndefined
  | GetTags => mergeConfig "get" "/tags" VUndefined VUndefined
  | DeleteTag tagName =>
      mergeConfig "delete" "/tag" VUndefined (VObj [("tags", VArr [tagName])])
  | RenameTag oldName newName =>
      mergeConfig "put" "/tags" VUndefined
        (VObj [("replace", VArr [VObj [("old", oldName); ("new", newName)]])])
  | GetUser => mergeConfig "get" "/user" VUndefined VUndefined
  end.

(** What an operation makes of a successful response. *)
Definition result_of (op : Operation) (r : AxiosResponse) : Completion Value :=
  let read (k : string) : Completion Value :=
    match body r with
    | VUndefined | VNull => Throw (JsTypeError k)
    | v => Return (opt_get v k)
    end in
  match op with
  | GetRaindrop _ | CreateRaindrop _ | UpdateRaindrop _ _
  | GetCollection _ | CreateCollection _ | UpdateCollection _ _ => read "item"
  | GetCollections | GetTags => read "items"
  | GetUser => read "user"
  | SearchRaindrops _ =>
      match read "items" with
      | Return items =>
          match read "count" with
          | Return count => Return (VObj [("items", items); ("count", count)])
          | Throw e => Throw e
          end
      | Throw e => Throw e
      end
  | DeleteRaindrop _ | DeleteCollection _ | DeleteTag _ | RenameTag _ _ =>
      Return VUndefined
  end.

End Client.

(** The budget the source configures. *)
Definition MAX_RETRIES : nat := 3.

(* ================================================================== *)
(** ** The dispatcher ([index.ts]) *)
(* ================================================================== *)

(** The catalogue [tools].  A descriptor is represented by its [name]: the
    descriptions and the input schemas are declarative data that no
    handler reads. *)
Definition tools : list string :=
  [ "search_bookmarks"; "get_bookmark"; "create_bookmark"; "update_bookmark";
    "delete_bookmark"; "list_collections"; "get_collection";
    "create_collection"; "update_collection"; "delete_collection";
    "list_tags"; "rename_tag"; "delete_tag"; "get_user_info" ].

(** [text] is [None] where the property holds [undefined]. *)
Record TextContent : Type := mkTextContent {
  type : string;
  text : option string
}.

(** [isError] is [false] for a result that has no [isError] property. *)
Record CallToolResult : Type := mkCallToolResult {
  content : list TextContent;
  isError : bool
}.

(** [request.params] of a call: the tool name and the argument bag, which
    the protocol layer guarantees to be an object when it is present. *)
Record CallToolRequest : Type := mkCallToolRequest {
  name : string;
  arguments : option Obj
}.

Definition success (t : option string) : CallToolResult :=
  {| content := [ {| type := "text"; text := t |} ]; isError := false |}.

Definition failure (s : string) : CallToolResult :=
  {| content := [ {| type := "text"; text := Some s |} ]; isError := true |}.

(** [JSON.stringify(value, null, 2)]: [undefined] for the value
    [undefined], and for every other value the string that [rendering]
    gives. *)
Definition stringify (rendering : Value -> string) (value : Value)
  : option string :=
  match value with
  | VUndefined => None
  | _ => Some (rendering value)
  end.

(** The double-quote character of the two tag confirmations. *)
Definition dquote : string := String (ascii_of_nat 34) EmptyString.

Section Dispatcher.

Variable remote : nat -> AxiosRequestConfig -> Outcome.
Variable StringToNumber : string -> option Z.

(** The string [JSON.stringify(value, null, 2)] of a value other than
    [undefined]. *)
Variable JSON_stringify : Value -> string.

(** The message the engine gives the TypeError raised by reading the
    named property of [undefined]. *)
Variable typeErrorMessage : string -> string.

(** [process.env.RAINDROP_API_TOKEN] *)
Variable API_TOKEN : string.

(** [const client = new RaindropClient({ apiToken: API_TOKEN })] *)
Definition client : RaindropConfig :=
  {| apiToken := API_TOKEN; baseUrl := None |}.

(** [error.message] *)
Definition message_of (error : Exn) : string :=
  match error with
  | JsError msg => msg
  | JsTypeError property => typeErrorMessage property
  end.

(** The argument bag where the code dereferences it for the first time,
    reading property [k]: a TypeError when the request had no arguments. *)
Definition dereference (args : option Obj) (k : string) : M Obj :=
  match args with
  | Some o => ret o
  | None => throw (JsTypeError k)
  end.

Definition unknownToolText (name : string) : string :=
  "Unknown tool: " ++ name ++ ". Available tools: " ++
  String.concat ", " tools ++
  ". DO NOT RETRY with the same tool name.".

(** The [switch (name)] inside the [try] block. *)
Definition callTool (name : string) (args : option Obj) : M CallToolResult :=
  if String.eqb name "search_bookmarks" then
    result <- searchRaindrops MAX_RETRIES remote StringToNumber client args ;;
    ret (success (stringify JSON_stringify result))
  else if String.eqb name "get_bookmark" then
    o <- dereference args "id" ;;
    let id := get "id" o in
    result <- getRaindrop MAX_RETRIES remote client id ;;
    ret (success (stringify JSON_stringify result))
  else if String.eqb name "create_bookmark" then
    params <- dereference args "link" ;;
    result <- createRaindrop MAX_RETRIES remote client params ;;
    ret (success (stringify JSON_stringify result))
  else if String.eqb name "update_bookmark" then
    o <- dereference args "id" ;;
    let id := get "id" o in
    let updateParams := without "id" o in
    result <- updateRaindrop MAX_RETRIES remote client id updateParams ;;
    ret (success (stringify JSON_stringify result))
  else if String.eqb name "delete_bookmark" then
    o <- dereference args "id" ;;
    let id := get "id" o in
    deleteRaindrop MAX_RETRIES remote client id ;;;
    ret (success (Some ("Bookmark " ++ ToString id ++ " deleted successfully")))
  else if String.eqb name "list_collections" then
    result <- getCollections MAX_RETRIES remote client ;;
    ret (success (stringify JSON_stringify result))
  else if String.eqb name "get_collection" then
    o <- dereference args "id" ;;
    let id := get "id" o in
    result <- getCollection MAX_RETRIES remote client id ;;
    ret (success (stringify JSON_stringify result))
  else if String.eqb name "create_collection" then
    params <- dereference args "title" ;;
    result <- createCollection MAX_RETRIES remote client params ;;
    ret (success (stringify JSON_stringify result))
  else if String.eqb name "update_collection" then
    o <- dereference args "id" ;;
    let id := get "id" o in
    let updateParams := without "id" o in
    result <- updateCollection MAX_RETRIES remote client id updateParams ;;
    ret (success (stringify JSON_stringify result))
  else if String.eqb name "delete_collection" then
    o <- dereference args "id" ;;
    let id := get "id" o in
    deleteCollection MAX_RETRIES remote client id ;;;
    ret (success (Some ("Collection " ++ ToString id ++ " deleted successfully")))
  else if String.eqb name "list_tags" then
    result <- getTags MAX_RETRIES remote client ;;
    ret (success (stringify JSON_stringify result))
  else if String.eqb name "rename_tag" then
    o <- dereference args "oldName" ;;
    let oldName := get "oldName" o in
    let newName := get "newName" o in
    renameTag MAX_RETRIES remote client oldName newName ;;;
    ret (success (Some ("Tag renamed from " ++ dquote ++ ToString oldName ++
                        dquote ++ " to " ++ dquote ++ ToString newName ++
                        dquote ++ " successfully")))
  else if String.eqb name "delete_tag" then
    o <- dereference args "tagName" ;;
    let tagName := get "tagName" o in
    deleteTag MAX_RETRIES remote client tagName ;;;
    ret (success (Some ("Tag " ++ dquote ++ ToString tagName ++ dquote ++
                        " deleted successfully")))
  else if String.eqb name "get_user_info" then
    result <- getUser MAX_RETRIES remote client ;;
    ret (success (stringify JSON_stringify result))
  else
    ret (failure (unknownToolText name)).

(** The handler of [ListToolsRequestSchema]. *)
Definition handleListTools (isShuttingDown : bool) : M (list string) :=
  if isShuttingDown
  then throw (JsError "Server is shutting down. Please wait and try again.")
  else ret tools.

(** The handler of [CallToolRequestSchema]. *)
Definition handleCallTool (isShuttingDown : bool) (request : CallToolRequest)
  : M CallToolResult :=
  if isShuttingDown then
    ret (failure "Error: Server is shutting down. Please wait and try again. DO NOT RETRY immediately.")
  else
    let name := name request in
    let args := arguments request in
    try_catch (callTool name args)
      (fun error => ret (failure ("Error: " ++ message_of error))).

End Dispatcher.

(* ================================================================== *)
(** ** The process: the shutdown flag, the exit timer, the error hooks *)
(* ================================================================== *)

Record Exit : Type := mkExit {
  code : Z;             (* the argument of [process.exit] *)
  at_ms : Z             (* when it was called *)
}.

(** The process state the handlers of [index.ts] share: the module-level
    flag, the clock (in milliseconds), the due times of the pending
    [setTimeout] callbacks (each of them logs and calls [process.exit(0)]),
    what was written to stderr, and the exit once it happened. *)
Record Process : Type := mkProcess {
  isShuttingDown : bool;
  now : Z;
  timers : list Z;
  stderr : list string;
  exited : option Exit
}.

Definition GRACE_MS : Z := 5000.

Definition initial : Process :=
  {| isShuttingDown := false; now := 0; timers := []; stderr := [];
     exited := None |}.

(** [process.exit(c)] *)
Definition process_exit (c : Z) (p : Process) : Process :=
  {| isShuttingDown := isShuttingDown p; now := now p; timers := timers p;
     stderr := stderr p; exited := Some {| code := c; at_ms := now p |} |}.

(** [console.error(line)] *)
Definition console_error (line : string) (p : Process) : Process :=
  {| isShuttingDown := isShuttingDown p; now := now p; timers := timers p;
     stderr := (stderr p ++ [line])%list; exited := exited p |}.

(** [shutdown(signal)]: log, raise the flag, arm the exit timer. *)
Definition shutdown (signal : string) (p : Process) : Process :=
  let p := console_error ("Received " ++ signal ++ ", shutting down gracefully...") p in
  {| isShuttingDown := true; now := now p;
     timers := (timers p ++ [now p + GRACE_MS])%list;
     stderr := stderr p; exited := exited p |}.

(** The earliest due time among the pending timers. *)
Fixpoint next_due (ts : list Z) : option Z :=
  match ts with
  | [] => None
  | t :: ts' =>
      match next_due ts' with
      | None => Some t
      | Some t' => Some (Z.min t t')
      end
  end.

(** Time passes by [dt] milliseconds.  A timer that falls due in between
    runs its callback at its due time: ['Shutdown complete'] is logged and
    the process exits with code 0. *)
Definition elapse (dt : Z) (p : Process) : Process :=
  let target := now p + Z.max 0 dt in
  match next_due (timers p) with
  | Some due =>
      if due <=? target then
        let fired :=
          {| isShuttingDown := isShuttingDown p; now := Z.max (now p) due;
             timers := timers p; stderr := stderr p; exited := exited p |} in
        process_exit 0 (console_error "Shutdown complete" fired)
      else
        {| isShuttingDown := isShuttingDown p; now := target;
           timers := timers p; stderr := stderr p; exited := exited p |}
  | None =>
      {| isShuttingDown := isShuttingDown p; now := target;
         timers := timers p; stderr := stderr p; exited := exited p |}
  end.

Inductive Stream : Type := Stdout | Stderr.

(** What can happen to the process between two requests. *)
Inductive ProcessEvent : Type :=
| Signal (signal : string)                       (* SIGINT or SIGTERM *)
| Elapse (dt : Z)
| StreamError (s : Stream) (errno : string)      (* ['error'] on stdout or stderr *)
| UncaughtException (errno : string)
| UnhandledRejection.

(** The reaction of the registered handlers; nothing runs after the exit. *)
Definition step (e : ProcessEvent) (p : Process) : Process :=
  match exited p with
  | Some _ => p
  | None =>
      match e with
      | Signal signal => shutdown signal p
      | Elapse dt => elapse dt p
      | StreamError Stdout errno =>
          if String.eqb errno "EPIPE" then process_exit 0 p
          else console_error "stdout error:" p
      | StreamError Stderr errno =>
          if String.eqb errno "EPIPE" then process_exit 0 p
          else process_exit 1 p
      | UncaughtException errno =>
          if String.eqb errno "EPIPE" then process_exit 0 p
          else console_error "Uncaught exception:" p
      | UnhandledRejection => console_error "Unhandled rejection at:" p
      end
  end.

Definition run (events : list ProcessEvent) (p : Process) : Process :=
  fold_left (fun q e => step e q) events p.

(* ================================================================== *)
(** ** Start-up *)
(* ================================================================== *)

(** [main()]: the transport is connected and the server announces itself
    on stderr; when [server.connect] rejects, the [catch] logs the fatal
    error and exits with code 1.  [connected] says whether it resolved. *)
Definition main (connected : bool) (p : Process) : Process :=
  if connected
  then console_error "H9K Raindrop MCP Server v1.0.2 running on stdio" p
  else process_exit 1 (console_error "Fatal error in main():" p).

(** The module body: without [RAINDROP_API_TOKEN] (unset, or empty, which
    is as falsy) the process logs and exits with code 1 before anything
    else is set up; otherwise the client and the handlers are created and
    [main] runs. *)
Definition start (RAINDROP_API_TOKEN : option string) (connected : bool)
  : Process :=
  match RAINDROP_API_TOKEN with
  | Some API_TOKEN =>
      if String.eqb API_TOKEN ""
      then process_exit 1
             (console_error "Error: RAINDROP_API_TOKEN environment variable is required"
                            initial)
      else main connected initial
  | None =>
      process_exit 1
        (console_error "Error: RAINDROP_API_TOKEN environment variable is required"
                       initial)
  end.

(* ================================================================== *)
(** ** Vocabulary of the statements *)
(* ================================================================== *)

(** The configuration of the [i]-th attempt of a call that started with
    [c]: the original for [i = 0], afterwards the same request with the
    counter advanced by [i]. *)
Definition attempt_config (c : AxiosRequestConfig) (i : nat)
  : AxiosRequestConfig :=
  match i with
  | O => c
  | S _ => set_retryCount c (retryCount_of c + i)
  end.

(** The backoff before retry number [n] (counted from 0). *)
Definition backoff (n : nat) : Z := RETRY_DELAY_MS * 2 ^ Z.of_nat n.

(** The line the interceptor logs before retry number [n]. *)
Definition retry_line (budget n : nat) : string :=
  "Request failed, retrying in " ++ number_to_string (backoff n) ++
  "ms (attempt " ++ number_to_string (Z.of_nat (n + 1)) ++ "/" ++
  number_to_string (Z.of_nat budget) ++ ")...".

(** The trace of [n] failed attempts, each followed by its log line and
    its backoff delay, for a call that started with [c]. *)
Fixpoint retry_prefix (budget : nat) (c : AxiosRequestConfig) (n : nat) : World :=
  match n with
  | O => []
  | S n' =>
      EvRequest c
      :: EvLog (retry_line budget (retryCount_of c))
      :: EvDelay (backoff (retryCount_of c))
      :: retry_prefix budget (set_retryCount c (retryCount_of c + 1)) n'
  end.

(** The trace of a call that is retried [n] times: the [n] failed
    attempts and the final one. *)
Definition retry_trace (budget : nat) (c : AxiosRequestConfig) (n : nat) : World :=
  (retry_prefix budget c n ++ [EvRequest (attempt_config c n)])%list.

(** An HTTP attempt that fails with a retryable classification: no
    response, a 429 or a 5xx. *)
Definition retryable (o : Outcome) : bool :=
  match o with
  | Rejected msg resp =>
      isRetryableError {| message := msg; config := None; response := resp |}
  | _ => false
  end.

(** An HTTP attempt that fails with a terminal classification. *)
Definition terminal (o : Outcome) : bool :=
  match o with
  | Rejected msg resp =>
      negb (isRetryableError {| message := msg; config := None; response := resp |})
  | _ => false
  end.

(** The error the interceptor receives for a failed call with [c]. *)
Definition error_of (c : AxiosRequestConfig) (o : Outcome) : AxiosError :=
  match o with
  | Fulfilled _ => {| message := ""; config := Some c; response := None |}
  | Rejected msg resp =>
      {| message := msg; config := Some c; response := resp |}
  | Unsent msg => {| message := msg; config := None; response := None |}
  end.

(** Two configurations are the same request: only the retry counter may
    differ. *)
Definition same_request (c c' : AxiosRequestConfig) : Prop :=
  method c' = method c /\ url c' = url c /\ baseURL c' = baseURL c /\
  timeout c' = timeout c /\ headers c' = headers c /\
  params c' = params c /\ data c' = data c.

(** An HTTP attempt that fails. *)
Definition rejected (o : Outcome) : bool :=
  match o with
  | Rejected _ _ => true
  | _ => false
  end.

(** [k in o]: the object has an own property [k]. *)
Definition has (k : string) (o : Obj) : bool :=
  existsb (String.eqb k) (keys o).

(** The fields of [UpdateRaindropParams] and of [UpdateCollectionParams]. *)
Definition raindrop_update_fields : list string :=
  ["title"; "excerpt"; "note"; "tags"; "important"; "collectionId"].

Definition collection_update_fields : list string :=
  ["title"; "description"; "public"; "view"; "parent"].

(** The key under which a field of the input travels: [collectionId]
    becomes the reference [collection]. *)
Definition outgoing_key (f : string) : string :=
  if String.eqb f "collectionId" then "collection" else f.

(** A reference to a collection: [{ $id: v }]. *)
Definition ref (v : Value) : Value := VObj [("$id", v)].

(** The fields of [SearchParams] that travel as query parameters. *)
Definition search_query_fields : list string :=
  ["search"; "sort"; "perpage"; "page"; "tag"].

(** The test [searchRaindrops] applies to a field before forwarding it:
    truthiness, and for [tag] a length above 0 as well. *)
Definition forwarded (StringToNumber : string -> option Z) (params : Obj)
  (f : string) : bool :=
  if String.eqb f "tag"
  then truthy (get "tag" params)
       && greater_than StringToNumber (length_of (get "tag" params)) 0
  else truthy (get f params).

(** The optional fields of [CreateCollectionParams], and the test
    [createCollection] applies to each before copying it: [!== undefined]
    for [public], truthiness for the others. *)
Definition collection_create_fields : list string :=
  ["description"; "public"; "view"; "parent"].

Definition copied_on_create (params : Obj) (f : string) : bool :=
  if String.eqb f "public"
  then defined (get "public" params)
  else truthy (get f params).

(** The operation the [switch] of the call handler runs for a tool name
    and an argument bag: [None] for a name that is no case of the switch,
    and for a case that dereferences a missing bag before it calls the
    client. *)
Definition selected (name : string) (args : option Obj) : option Operation :=
  if String.eqb name "search_bookmarks" then Some (SearchRaindrops args)
  else if String.eqb name "get_bookmark" then
    option_map (fun o => GetRaindrop (get "id" o)) args
  else if String.eqb name "create_bookmark" then option_map CreateRaindrop args
  else if String.eqb name "update_bookmark" then
    option_map (fun o => UpdateRaindrop (get "id" o) (without "id" o)) args
  else if String.eqb name "delete_bookmark" then
    option_map (fun o => DeleteRaindrop (get "id" o)) args
  else if String.eqb name "list_collections" then Some GetCollections
  else if String.eqb name "get_collection" then
    option_map (fun o => GetCollection (get "id" o)) args
  else if String.eqb name "create_collection" then option_map CreateCollection args
  else if String.eqb name "update_collection" then
    option_map (fun o => UpdateCollection (get "id" o) (without "id" o)) args
  else if String.eqb name "delete_collection" then
    option_map (fun o => DeleteCollection (get "id" o)) args
  else if String.eqb name "list_tags" then Some GetTags
  else if String.eqb name "rename_tag" then
    option_map (fun o => RenameTag (get "oldName" o) (get "newName" o)) args
  else if String.eqb name "delete_tag" then
    option_map (fun o => DeleteTag (get "tagName" o)) args
  else if String.eqb name "get_user_info" then Some GetUser
  else None.

(** [needle] occurs in [hay]. *)
Fixpoint contains (needle hay : string) : bool :=
  String.prefix needle hay
  || match hay with
     | EmptyString => false
     | String _ hay' => contains needle hay'
     end.

Definition shutdown_text : string :=
  "Error: Server is shutting down. Please wait and try again. DO NOT RETRY immediately.".

(** The text of the success response for the value [v] an operation
    resolved to: [None] where the response holds [undefined]. *)
Definition success_text (JSON_stringify : Value -> string) (op : Operation)
  (v : Value) : option string :=
  match op with
  | DeleteRaindrop id =>
      Some ("Bookmark " ++ ToString id ++ " deleted successfully")
  | DeleteCollection id =>
      Some ("Collection " ++ ToString id ++ " deleted successfully")
  | RenameTag oldName newName =>
      Some ("Tag renamed from " ++ dquote ++ ToString oldName ++ dquote ++
            " to " ++ dquote ++ ToString newName ++ dquote ++ " successfully")
  | DeleteTag tagName =>
      Some ("Tag " ++ dquote ++ ToString tagName ++ dquote ++
            " deleted successfully")
  | _ => stringify JSON_stringify v
  end.

(** What the switch does with the operation it selected: the operation
    runs, and its value is rendered as the text of a success response. *)
Definition dispatched (remote : nat -> AxiosRequestConfig -> Outcome)
  (StringToNumber : string -> option Z) (JSON_stringify : Value -> string)
  (API_TOKEN : string) (op : Operation) : M CallToolResult :=
  fun w =>
    match invoke MAX_RETRIES remote StringToNumber (client API_TOKEN) op w with
    | None => None
    | Some (Return v, w') =>
        Some (Return (success (success_text JSON_stringify op v)), w')
    | Some (Throw e, w') => Some (Throw e, w')
    end.

(** What holds from the moment [shutdown] armed a timer due at [T]: the
    flag stays up, the timer stays pending, a process that is still alive
    has not reached [T], and one that exited did so no later than [T]. *)
Definition draining (T : Z) (q : Process) : Prop :=
  isShuttingDown q = true
  /\ In T (timers q)
  /\ (exited q = None -> now q < T)
  /\ (forall x, exited q = Some x -> at_ms x <= T).

(* ================================================================== *)
(** ** Vocabulary of the further statements *)
(* ================================================================== *)

(** How a call of [this.client] ends on the outcome [o] of its last call
    of the adapter, made with [c]. *)
Definition completion_of (budget : nat) (c : AxiosRequestConfig) (o : Outcome)
  : Completion AxiosResponse :=
  match o with
  | Fulfilled r => Return r
  | _ => Throw (JsError (formatError budget (error_of c o)))
  end.

(** What that last call of the adapter leaves in the trace: the attempt,
    unless the call failed unsent. *)
Definition last_attempt (c : AxiosRequestConfig) (o : Outcome) : World :=
  match o with
  | Unsent _ => []
  | _ => [EvRequest c]
  end.

(** The sum of the delays of a trace. *)
Definition total_delay (w : World) : Z := fold_right Z.add 0 (delays w).

(** The lines logged in a trace, oldest first. *)
Fixpoint logged (w : World) : list string :=
  match w with
  | [] => []
  | EvLog line :: w' => line :: logged w'
  | _ :: w' => logged w'
  end.

(** The operations declared [Promise<void>]. *)
Definition returns_nothing (op : Operation) : bool :=
  match op with
  | DeleteRaindrop _ | DeleteCollection _ | DeleteTag _ | RenameTag _ _ => true
  | _ => false
  end.

(** [null] or [undefined]. *)
Definition nullish (v : Value) : bool :=
  match v with
  | VUndefined | VNull => true
  | _ => false
  end.


(** The fields [createRaindrop] copies when they pass its test:
    [!== undefined] for [important], truthiness for the others. *)
Definition raindrop_create_fields : list string :=
  ["title"; "excerpt"; "note"; "tags"; "important"].

Definition copied_on_create_raindrop (params : Obj) (f : string) : bool :=
  if String.eqb f "important"
  then defined (get "important" params)
  else truthy (get f params).

(** The key of the response envelope an operation returns: [None] for a
    search, which returns two, and for the operations that return
    nothing. *)
Definition envelope_key (op : Operation) : option string :=
  match op with
  | GetRaindrop _ | CreateRaindrop _ | UpdateRaindrop _ _
  | GetCollection _ | CreateCollection _ | UpdateCollection _ _ => Some "item"
  | GetCollections | GetTags => Some "items"
  | GetUser => Some "user"
  | _ => None
  end.

(** An event the handlers answer without ending or draining the process:
    time passing, an unhandled rejection, and an error on stdout or an
    uncaught exception that is not a broken pipe. *)
Definition benign (e : ProcessEvent) : bool :=
  match e with
  | Signal _ => false
  | Elapse _ => true
  | StreamError Stdout errno => negb (String.eqb errno "EPIPE")
  | StreamError Stderr _ => false
  | UncaughtException errno => negb (String.eqb errno "EPIPE")
  | UnhandledRejection => true
  end.

(** An error on stderr that is not a broken pipe. *)
Definition stderr_failed (e : ProcessEvent) : bool :=
  match e with
  | StreamError Stderr errno => negb (String.eqb errno "EPIPE")
  | _ => false
  end.

(* ================================================================== *)
(** ** Concrete remotes and clients used to exercise the statements *)
(* ================================================================== *)

Definition demo_client : RaindropConfig :=
  {| apiToken := "token"; baseUrl := None |}.

(** No string is read as a number. *)
Definition no_number : string -> option Z := fun _ => None.

(** A remote end that times out twice and then answers. *)
Definition flaky_remote : nat -> AxiosRequestConfig -> Outcome :=
  fun n _ =>
    if (n <? 2)%nat then Rejected "timeout of 30000ms exceeded" None
    else Fulfilled {| status := 200;
                      body := VObj [("item", VObj [("_id", VNum 7)])] |}.

(** A remote end that times out twice and then answers 200 with the
    JSON document [null]. *)
Definition null_body_remote : nat -> AxiosRequestConfig -> Outcome :=
  fun n _ =>
    if (n <? 2)%nat then Rejected "timeout of 30000ms exceeded" None
    else Fulfilled {| status := 200; body := VNull |}.

(** A remote end that answers 200 with an empty envelope. *)
Definition bare_remote : nat -> AxiosRequestConfig -> Outcome :=
  fun _ _ => Fulfilled {| status := 200; body := VObj [("result", VBool true)] |}.

(** A remote end that is down: every attempt gets a 503. *)
Definition down_remote : nat -> AxiosRequestConfig -> Outcome :=
  fun _ _ =>
    Rejected "Request failed with status code 503"
             (Some {| status := 503; body := VNull |}).

(** A remote end that knows no such bookmark: every attempt gets a 404. *)
Definition missing_remote : nat -> AxiosRequestConfig -> Outcome :=
  fun _ _ =>
    Rejected "Request failed with status code 404"
             (Some {| status := 404; body := VObj [("result", VBool false)] |}).

(** A search filter that provides an empty query and page 0 explicitly. *)
Definition explicit_empty_filter : Obj :=
  [("search", VStr ""); ("page", VNum 0)].

(** A rendering of values and an engine message, for concrete runs. *)
Definition no_rendering : Value -> string := fun _ => "{}".
Definition no_message : string -> string := fun _ => "TypeError".

Definition get_bookmark_7 : CallToolRequest :=
  {| name := "get_bookmark"; arguments := Some [("id", VNum 7)] |}.

Definition frobnicate : CallToolRequest :=
  {| name := "frobnicate"; arguments := None |}.

(* ================================================================== *)
(** ** Values *)
(* ================================================================== *)

Example number_to_string_neg : number_to_string (-1) = "-1".
Proof. reflexivity. Qed.

Example number_to_string_zero : number_to_string 0 = "0".
Proof. reflexivity. Qed.

(** Beyond [2^53] a number prints the shortest digits that denote it, and
    from [10^21] on in exponent notation. *)
Example number_to_string_large :
  map number_to_string
      [2 ^ 53; 2 ^ 53 + 1; 2 ^ 64; 10 ^ 21 - 1; 10 ^ 21; - 2 ^ 70;
       123456789012345678901234567890; 2 ^ 1024]
  = ["9007199254740992"; "9007199254740992"; "18446744073709552000";
     "1e+21"; "1e+21"; "-1.1805916207174113e+21";
     "1.2345678901234568e+29"; "Infinity"].
Proof. vm_compute. reflexivity. Qed.

Example ToString_array :
  ToString (VArr [VNum 12; VNull; VStr "a"]) = "12,,a".
Proof. reflexivity. Qed.

(* ================================================================== *)
(** ** The model at work *)
(* ================================================================== *)

Example create_minimal_bookmark :
  createRaindrop_data [("link", VStr "https://example.com")]
  = [("link", VStr "https://example.com"); ("pleaseParse", VObj [])].
Proof. reflexivity. Qed.

Example create_bookmark_in_trash :
  createRaindrop_data
    [("link", VStr "https://example.com"); ("title", VStr "Example");
     ("important", VBool false); ("collectionId", VNum (-1))]
  = [("link", VStr "https://example.com"); ("pleaseParse", VObj []);
     ("title", VStr "Example"); ("important", VBool false);
     ("collection", VObj [("$id", VNum (-1))])].
Proof. reflexivity. Qed.

Example search_by_tag_in_collection :
  let c := request_of no_number demo_client
             (SearchRaindrops
                (Some [("collectionId", VNum 12); ("tag", VArr [VStr "rocq"]);
                       ("page", VNum 2)])) in
  method c = "get" /\ url c = "/raindrops/12"
  /\ params c = VObj [("page", VNum 2); ("tag", VArr [VStr "rocq"])]
  /\ baseURL c = "https://api.raindrop.io/rest/v1"
  /\ timeout c = 30000
  /\ headers c = [("Authorization", VStr "Bearer token");
                  ("Content-Type", VStr "application/json")].
Proof. repeat split. Qed.

(** A call that gets through on the third attempt. *)
Example get_bookmark_after_two_timeouts :
  exists c,
    handleCallTool flaky_remote no_number no_rendering no_message "token"
      false get_bookmark_7 []
    = Some (Return (success (Some "{}")),
            [EvRequest c;
             EvLog "Request failed, retrying in 1000ms (attempt 1/3)...";
             EvDelay 1000;
             EvRequest (set_retryCount c 1);
             EvLog "Request failed, retrying in 2000ms (attempt 2/3)...";
             EvDelay 2000;
             EvRequest (set_retryCount c 2)])
    /\ url c = "/raindrop/7".
Proof.
  exists (request_of no_number (client "token") (GetRaindrop (VNum 7))).
  split; reflexivity.
Qed.

(** A bookmark that the envelope of the response does not hold: a success
    response whose text is [undefined]. *)
Example get_bookmark_without_item :
  exists w,
    handleCallTool bare_remote no_number no_rendering no_message "token"
      false get_bookmark_7 []
    = Some (Return (success None), w).
Proof. eexists. reflexivity. Qed.

(** The identifier of a confirmation, as a template literal prints it. *)
Example delete_collection_confirmation :
  exists w,
    handleCallTool bare_remote no_number no_rendering no_message "token" false
      {| name := "delete_collection"; arguments := Some [("id", VNum (10 ^ 21))] |} []
    = Some (Return (success (Some "Collection 1e+21 deleted successfully")), w).
Proof. eexists. vm_compute. reflexivity. Qed.

(** A call without arguments where the case destructures them. *)
Example get_bookmark_without_arguments :
  handleCallTool flaky_remote no_number no_rendering no_message "token"
    false {| name := "get_bookmark"; arguments := None |} []
  = Some (Return (failure "Error: TypeError"), []).
Proof. reflexivity. Qed.

Example rename_tag_confirmation :
  success_text no_rendering (RenameTag (VStr "ml") (VStr "machine-learning")) VUndefined
  = Some ("Tag renamed from " ++ dquote ++ "ml" ++ dquote ++ " to " ++ dquote
          ++ "machine-learning" ++ dquote ++ " successfully").
Proof. reflexivity. Qed.

(** SIGINT, a broken pipe on stdout two seconds later. *)
Example broken_pipe_during_shutdown :
  exited (run [Signal "SIGINT"; Elapse 2000; StreamError Stdout "EPIPE"; Elapse 9000]
              initial)
  = Some {| code := 0; at_ms := 2000 |}.
Proof. reflexivity. Qed.

(* ================================================================== *)
(** ** The retry policy *)
(* ================================================================== *)

Local Open Scope list_scope.

(** *** Traces *)

Lemma requests_app (w w' : World) :
  requests (w ++ w') = (requests w ++ requests w')%list.
Proof.
  induction w as [|e w IH]; simpl; [reflexivity|].
  destruct e; simpl; rewrite IH; reflexivity.
Qed.

Lemma delays_app (w w' : World) :
  delays (w ++ w') = (delays w ++ delays w')%list.
Proof.
  induction w as [|e w IH]; simpl; [reflexivity|].
  destruct e; simpl; rewrite IH; reflexivity.
Qed.

Lemma attempts_app (w w' : World) :
  attempts (w ++ w') = (attempts w + attempts w')%nat.
Proof. unfold attempts. rewrite requests_app, length_app. reflexivity. Qed.

Lemma attempt_config_next (c : AxiosRequestConfig) (i : nat) :
  attempt_config (set_retryCount c (retryCount_of c + 1)) i
  = attempt_config c (S i).
Proof.
  destruct i as [|i]; simpl.
  - reflexivity.
  - unfold set_retryCount, retryCount_of; simpl. f_equal. f_equal. lia.
Qed.

Lemma retryCount_set (c : AxiosRequestConfig) (n : nat) :
  retryCount_of (set_retryCount c n) = n.
Proof. reflexivity. Qed.

Lemma retryCount_attempt_config (c : AxiosRequestConfig) (i : nat) :
  retryCount_of (attempt_config c i) = (retryCount_of c + i)%nat.
Proof. destruct i; simpl; [lia | reflexivity]. Qed.

Lemma same_request_attempt_config (c : AxiosRequestConfig) (i : nat) :
  same_request c (attempt_config c i).
Proof. destruct i; repeat split. Qed.

Lemma retryable_rejected (o : Outcome) :
  retryable o = true -> rejected o = true.
Proof. destruct o; (discriminate || reflexivity). Qed.

Lemma terminal_rejected (o : Outcome) :
  terminal o = true -> rejected o = true.
Proof. destruct o; (discriminate || reflexivity). Qed.

Lemma terminal_not_retryable (o : Outcome) :
  terminal o = true -> retryable o = false.
Proof.
  destruct o as [r|msg resp|msg]; try reflexivity. simpl. intros H.
  apply negb_true_iff in H. exact H.
Qed.

Lemma requests_retry_prefix (budget : nat) (n : nat) :
  forall c, requests (retry_prefix budget c n)
            = map (attempt_config c) (seq 0 n).
Proof.
  induction n as [|n IH]; intros c; simpl; [reflexivity|].
  f_equal. rewrite IH, <- seq_shift, map_map.
  apply map_ext. intros i. apply attempt_config_next.
Qed.

Lemma delays_retry_prefix (budget : nat) (n : nat) :
  forall c, delays (retry_prefix budget c n)
            = map (fun i => backoff (retryCount_of c + i)) (seq 0 n).
Proof.
  induction n as [|n IH]; intros c; simpl; [reflexivity|].
  f_equal.
  - f_equal. lia.
  - rewrite IH, <- seq_shift, map_map. apply map_ext. intros i.
    unfold set_retryCount, retryCount_of at 1; simpl. f_equal. lia.
Qed.

Lemma requests_retry_trace (budget : nat) (c : AxiosRequestConfig) (n : nat) :
  requests (retry_trace budget c n) = map (attempt_config c) (seq 0 (S n)).
Proof.
  unfold retry_trace. rewrite requests_app, requests_retry_prefix.
  rewrite seq_S, map_app. reflexivity.
Qed.

Lemma delays_retry_trace (budget : nat) (c : AxiosRequestConfig) (n : nat) :
  delays (retry_trace budget c n)
  = map (fun i => backoff (retryCount_of c + i)) (seq 0 n).
Proof.
  unfold retry_trace. rewrite delays_app, delays_retry_prefix. simpl.
  apply app_nil_r.
Qed.

(** *** One pass through the interceptor *)

Section RetryPolicy.

Variable budget : nat.
Variable remote : nat -> AxiosRequestConfig -> Outcome.

Lemma request_fuel_fulfilled (fuel : nat) (c : AxiosRequestConfig)
  (w : World) (r : AxiosResponse) :
  remote (attempts w) c = Fulfilled r ->
  request_fuel budget remote (S fuel) c w
  = Some (Return r, w ++ [EvRequest c]).
Proof.
  intros H. simpl. unfold dispatchRequest. rewrite H. reflexivity.
Qed.

Lemma request_fuel_retry (fuel : nat) (c : AxiosRequestConfig) (w : World) :
  retryable (remote (attempts w) c) = true ->
  (retryCount_of c < budget)%nat ->
  request_fuel budget remote (S fuel) c w
  = request_fuel budget remote fuel
      (set_retryCount c (retryCount_of c + 1))
      (w ++ [EvRequest c; EvLog (retry_line budget (retryCount_of c));
             EvDelay (backoff (retryCount_of c))]).
Proof.
  intros Hr Hlt. simpl. unfold dispatchRequest.
  destruct (remote (attempts w) c) as [r|msg resp|msg]; try discriminate.
  simpl in Hr.
  unfold onRejected. cbn [config].
  apply Nat.ltb_lt in Hlt. rewrite Hlt.
  unfold isRetryableError in Hr |- *. cbn [response] in Hr |- *.
  rewrite Hr. cbn [andb]. unfold bind, emit.
  rewrite <- !app_assoc. reflexivity.
Qed.

Lemma request_fuel_unsent (fuel : nat) (c : AxiosRequestConfig) (w : World)
  (msg : string) :
  remote (attempts w) c = Unsent msg ->
  request_fuel budget remote (S fuel) c w
  = Some (Throw (JsError (formatError budget (error_of c (Unsent msg)))), w).
Proof.
  intros H. simpl. unfold dispatchRequest. rewrite H. reflexivity.
Qed.

Lemma request_fuel_gives_up (fuel : nat) (c : AxiosRequestConfig) (w : World) :
  rejected (remote (attempts w) c) = true ->
  retryable (remote (attempts w) c) = false \/ (budget <= retryCount_of c)%nat ->
  request_fuel budget remote (S fuel) c w
  = Some (Throw (JsError (formatError budget (error_of c (remote (attempts w) c)))),
          w ++ [EvRequest c]).
Proof.
  intros Hrej Hstop. simpl. unfold dispatchRequest.
  destruct (remote (attempts w) c) as [r|msg resp|msg]; try discriminate.
  unfold onRejected, error_of. cbn [config].
  destruct Hstop as [Hstop|Hstop].
  - simpl in Hstop. unfold isRetryableError in Hstop |- *.
    cbn [response] in Hstop |- *.
    rewrite Hstop, andb_false_r. reflexivity.
  - apply Nat.ltb_ge in Hstop. rewrite Hstop. reflexivity.
Qed.

(** [n] retryable failures in a row, with budget left for each, lead to
    the [n]-th retry. *)
Lemma request_fuel_retries (n : nat) :
  forall (fuel : nat) (c : AxiosRequestConfig) (w : World),
    (retryCount_of c + n <= budget)%nat ->
    (forall i, (i < n)%nat ->
       retryable (remote (attempts w + i) (attempt_config c i)) = true) ->
    request_fuel budget remote (n + fuel) c w
    = request_fuel budget remote fuel (attempt_config c n)
        (w ++ retry_prefix budget c n).
Proof.
  induction n as [|n IH]; intros fuel c w Hb Hfail.
  - simpl. rewrite app_nil_r. reflexivity.
  - cbn [Nat.add]. rewrite request_fuel_retry.
    + rewrite IH.
      * rewrite attempt_config_next. cbn [retry_prefix].
        rewrite <- app_assoc. reflexivity.
      * unfold retryCount_of at 1, set_retryCount; simpl. lia.
      * intros i Hi. rewrite attempt_config_next.
        rewrite attempts_app. cbn [attempts requests length].
        replace (attempts w + 1 + i)%nat with (attempts w + S i)%nat by lia.
        apply Hfail. lia.
    + specialize (Hfail 0%nat ltac:(lia)).
      rewrite Nat.add_0_r in Hfail. exact Hfail.
    + lia.
Qed.

(** The recursion through the interceptor is bounded by the budget that
    is left: with more fuel than that, a call completes, after at most
    one attempt more than the budget left, and what it throws is a
    classified message. *)
Lemma request_fuel_total (fuel : nat) :
  forall (c : AxiosRequestConfig) (w : World),
    (budget - retryCount_of c < fuel)%nat ->
    exists res w',
      request_fuel budget remote fuel c w = Some (res, w ++ w')
      /\ (attempts w' <= S (budget - retryCount_of c))%nat
      /\ match res with
         | Return _ => True
         | Throw e => exists err, e = JsError (formatError budget err)
         end.
Proof.
  induction fuel as [|fuel IH]; intros c w Hfuel; [lia|].
  destruct (remote (attempts w) c) as [r|msg resp|msg] eqn:Ho.
  - exists (Return r), [EvRequest c].
    rewrite (request_fuel_fulfilled _ _ _ _ Ho).
    repeat split; cbn; lia.
  - destruct (retryable (Rejected msg resp)) eqn:Hr.
    + destruct (Nat.ltb_spec (retryCount_of c) budget) as [Hlt|Hge].
      * rewrite request_fuel_retry by (rewrite ?Ho; assumption).
        set (c' := set_retryCount c (retryCount_of c + 1)).
        assert (Hc' : retryCount_of c' = (retryCount_of c + 1)%nat) by reflexivity.
        destruct (IH c' (w ++ [EvRequest c; EvLog (retry_line budget (retryCount_of c));
                               EvDelay (backoff (retryCount_of c))]))
          as (res & w' & Heq & Hn & Hres); [lia|].
        exists res, ([EvRequest c; EvLog (retry_line budget (retryCount_of c));
                      EvDelay (backoff (retryCount_of c))] ++ w').
        rewrite Heq, <- app_assoc. split; [reflexivity|]. split; [|exact Hres].
        rewrite attempts_app. cbn [attempts requests length]. lia.
      * exists (Throw (JsError (formatError budget (error_of c (remote (attempts w) c))))),
               [EvRequest c].
        rewrite request_fuel_gives_up; rewrite ?Ho; auto.
        repeat split; cbn; try lia. eexists; reflexivity.
    + exists (Throw (JsError (formatError budget (error_of c (remote (attempts w) c))))),
             [EvRequest c].
      rewrite request_fuel_gives_up; rewrite ?Ho; auto.
      repeat split; cbn; try lia. eexists; reflexivity.
  - exists (Throw (JsError (formatError budget (error_of c (Unsent msg))))), [].
    rewrite (request_fuel_unsent _ _ _ _ Ho), app_nil_r.
    split; [reflexivity|]. split; [cbn; lia|]. eexists; reflexivity.
Qed.

(** Past that bound the amount of fuel does not matter. *)
Lemma request_fuel_enough (fuel : nat) :
  forall (fuel' : nat) (c : AxiosRequestConfig) (w : World),
    (budget - retryCount_of c < fuel)%nat ->
    (budget - retryCount_of c < fuel')%nat ->
    request_fuel budget remote fuel c w = request_fuel budget remote fuel' c w.
Proof.
  induction fuel as [|fuel IH]; intros fuel' c w Hf Hf'; [lia|].
  destruct fuel' as [|fuel']; [lia|].
  destruct (remote (attempts w) c) as [r|msg resp|msg] eqn:Ho.
  - rewrite !(request_fuel_fulfilled _ _ _ _ Ho). reflexivity.
  - destruct (retryable (Rejected msg resp)) eqn:Hr.
    + destruct (Nat.ltb_spec (retryCount_of c) budget) as [Hlt|Hge].
      * rewrite !request_fuel_retry by (rewrite ?Ho; assumption).
        apply IH; rewrite retryCount_set; lia.
      * rewrite !request_fuel_gives_up; rewrite ?Ho; auto.
    + rewrite !request_fuel_gives_up; rewrite ?Ho; auto.
  - rewrite !(request_fuel_unsent _ _ _ _ Ho). reflexivity.
Qed.

Variable StringToNumber : string -> option Z.
Variable clientConfig : RaindropConfig.

(** Every operation is one call of [this.client] on its request,
    followed by the projection of the response. *)
Lemma invoke_request (op : Operation) (w : World) :
  invoke budget remote StringToNumber clientConfig op w
  = match request budget remote (request_of StringToNumber clientConfig op) w with
    | None => None
    | Some (Return r, w') => Some (result_of op r, w')
    | Some (Throw e, w') => Some (Throw e, w')
    end.
Proof.
  destruct op;
    unfold invoke, getRaindrop, searchRaindrops, createRaindrop, updateRaindrop,
      deleteRaindrop, getCollections, getCollection, createCollection,
      updateCollection, deleteCollection, getTags, deleteTag, renameTag, getUser,
      client_get, client_post, client_put, client_delete, request_of, bind;
    match goal with
    | |- context [request ?b ?rm ?c ?w] =>
        destruct (request b rm c w) as [[[r|e] w']|]
    end; try reflexivity;
    unfold result_of, member, ret, throw; destruct (body r); reflexivity.
Qed.

Lemma retryCount_request_of (op : Operation) :
  __retryCount (request_of StringToNumber clientConfig op) = None.
Proof. destruct op; reflexivity. Qed.

End RetryPolicy.

(** *** Retried calls *)

Lemma retry_trace_S (budget : nat) (c : AxiosRequestConfig) (n : nat) :
  retry_trace budget c (S n)
  = EvRequest c
    :: EvLog (retry_line budget (retryCount_of c))
    :: EvDelay (backoff (retryCount_of c))
    :: retry_trace budget (set_retryCount c (retryCount_of c + 1)) n.
Proof.
  unfold retry_trace. cbn [retry_prefix app].
  rewrite attempt_config_next. reflexivity.
Qed.

Lemma retry_trace_head (budget : nat) (c : AxiosRequestConfig) (n : nat) :
  exists rest, retry_trace budget c n = EvRequest c :: rest.
Proof.
  destruct n.
  - exists []. reflexivity.
  - rewrite retry_trace_S. eexists. reflexivity.
Qed.

(** In the trace of a retried call, retry number [k] comes right after
    its backoff delay. *)
Lemma retry_trace_delay_then_request (budget : nat) (n : nat) :
  forall (c : AxiosRequestConfig) (k : nat),
    (k < n)%nat ->
    exists before after,
      retry_trace budget c n
      = before ++ EvDelay (backoff (retryCount_of c + k))
               :: EvRequest (attempt_config c (S k)) :: after.
Proof.
  induction n as [|n IH]; intros c k Hk; [lia|].
  rewrite retry_trace_S.
  destruct k as [|k].
  - destruct (retry_trace_head budget (set_retryCount c (retryCount_of c + 1)) n)
      as [rest Hrest].
    exists [EvRequest c; EvLog (retry_line budget (retryCount_of c))], rest.
    rewrite Hrest, Nat.add_0_r. reflexivity.
  - destruct (IH (set_retryCount c (retryCount_of c + 1)) k ltac:(lia))
      as (before & after & Heq).
    exists (EvRequest c :: EvLog (retry_line budget (retryCount_of c))
            :: EvDelay (backoff (retryCount_of c)) :: before), after.
    rewrite Heq, attempt_config_next.
    rewrite retryCount_set.
    replace (retryCount_of c + 1 + k)%nat with (retryCount_of c + S k)%nat by lia.
    reflexivity.
Qed.

Lemma attempts_retry_prefix (budget : nat) (c : AxiosRequestConfig) (n : nat) :
  attempts (retry_prefix budget c n) = n.
Proof.
  unfold attempts. rewrite requests_retry_prefix, length_map, length_seq.
  reflexivity.
Qed.

Section RetriedCalls.

Variable budget : nat.
Variable remote : nat -> AxiosRequestConfig -> Outcome.
Variable StringToNumber : string -> option Z.
Variable clientConfig : RaindropConfig.

Local Abbreviation c_of op := (request_of StringToNumber clientConfig op).

(** [n] retryable failures within the budget, then a success. *)
Lemma invoke_retry_then_success (op : Operation) (w : World) (n : nat)
  (r : AxiosResponse) :
  (n <= budget)%nat ->
  (forall i, (i < n)%nat ->
     retryable (remote (attempts w + i) (attempt_config (c_of op) i)) = true) ->
  remote (attempts w + n) (attempt_config (c_of op) n) = Fulfilled r ->
  invoke budget remote StringToNumber clientConfig op w
  = Some (result_of op r, w ++ retry_trace budget (c_of op) n).
Proof.
  intros Hn Hfail Hok. rewrite invoke_request. unfold request.
  replace (S budget) with (n + S (budget - n))%nat by lia.
  rewrite request_fuel_retries; try assumption.
  - rewrite (request_fuel_fulfilled _ _ _ _ _ r).
    + unfold retry_trace. rewrite app_assoc. reflexivity.
    + rewrite attempts_app, attempts_retry_prefix. exact Hok.
  - unfold retryCount_of. rewrite retryCount_request_of. lia.
Qed.

(** [n] retryable failures within the budget, then a rejection that the
    interceptor does not retry: a terminal one, or any one when the
    budget is used up. *)
Lemma invoke_retry_then_failure (op : Operation) (w : World) (n : nat) :
  (n <= budget)%nat ->
  (forall i, (i < n)%nat ->
     retryable (remote (attempts w + i) (attempt_config (c_of op) i)) = true) ->
  rejected (remote (attempts w + n) (attempt_config (c_of op) n)) = true ->
  retryable (remote (attempts w + n) (attempt_config (c_of op) n)) = false
  \/ n = budget ->
  invoke budget remote StringToNumber clientConfig op w
  = Some (Throw (JsError (formatError budget
                   (error_of (attempt_config (c_of op) n)
                      (remote (attempts w + n) (attempt_config (c_of op) n))))),
          w ++ retry_trace budget (c_of op) n).
Proof.
  intros Hn Hfail Hrej Hstop. rewrite invoke_request. unfold request.
  replace (S budget) with (n + S (budget - n))%nat by lia.
  rewrite request_fuel_retries; try assumption.
  - rewrite request_fuel_gives_up;
      rewrite ?attempts_app, ?attempts_retry_prefix; try assumption.
    + unfold retry_trace. rewrite app_assoc. reflexivity.
    + destruct Hstop as [Hstop|Hstop]; [left; exact Hstop|right].
      rewrite retryCount_attempt_config. lia.
  - unfold retryCount_of. rewrite retryCount_request_of. lia.
Qed.

(** Whatever the remote end does, an operation completes, after at most
    [budget + 1] attempts. *)
Lemma invoke_total (op : Operation) (w : World) :
  exists res w',
    invoke budget remote StringToNumber clientConfig op w = Some (res, w ++ w')
    /\ (attempts w' <= S budget)%nat.
Proof.
  rewrite invoke_request. unfold request.
  destruct (request_fuel_total budget remote (S budget) (c_of op) w)
    as (res & w' & Heq & Hn & _); [lia|].
  rewrite Heq.
  assert (Hb : (attempts w' <= S budget)%nat) by lia.
  destruct res as [r|e]; eexists; exists w'; split; try reflexivity; exact Hb.
Qed.

End RetriedCalls.

Lemma request_of_fresh (StringToNumber : string -> option Z)
  (clientConfig : RaindropConfig) (op : Operation) :
  retryCount_of (request_of StringToNumber clientConfig op) = 0%nat.
Proof. unfold retryCount_of. rewrite retryCount_request_of. reflexivity. Qed.

Lemma Forall_same_request (c : AxiosRequestConfig) (l : list nat) :
  Forall (same_request c) (map (attempt_config c) l).
Proof.
  apply Forall_forall. intros c' Hin. apply in_map_iff in Hin as (i & <- & _).
  apply same_request_attempt_config.
Qed.

(** An operation returns on a response exactly when it returns nothing
    or the body of the response is neither [null] nor [undefined]. *)
Lemma result_of_returns (op : Operation) (r : AxiosResponse) :
  (exists v, result_of op r = Return v)
  <-> returns_nothing op = true \/ nullish (body r) = false.
Proof.
  unfold result_of, nullish. split.
  - intros (v & Hv).
    destruct (body r); try (right; reflexivity);
      destruct op; try discriminate; left; reflexivity.
  - intros [H|H].
    + destruct op; try discriminate; eexists; reflexivity.
    + destruct (body r); try discriminate; destruct op; eexists; reflexivity.
Qed.

Lemma result_of_throws (op : Operation) (r : AxiosResponse) :
  returns_nothing op = false -> nullish (body r) = true ->
  exists k, result_of op r = Throw (JsTypeError k).
Proof.
  unfold result_of. intros Hop Hb.
  destruct (body r); try discriminate;
    destruct op; try discriminate; eexists; reflexivity.
Qed.

(** C1, as stated, fails: [getRaindrop], retried after two timeouts and
    then answered 200 with the body [null], does not return the
    successful result; reading [item] of that body throws a TypeError,
    and the call handler answers with an error. *)
Lemma retried_success_with_null_body_throws :
  retryable (null_body_remote 0
               (attempt_config (request_of no_number demo_client (GetRaindrop (VNum 7))) 0))
  = true
  /\ retryable (null_body_remote 1
                  (attempt_config (request_of no_number demo_client (GetRaindrop (VNum 7))) 1))
     = true
  /\ null_body_remote 2
       (attempt_config (request_of no_number demo_client (GetRaindrop (VNum 7))) 2)
     = Fulfilled {| status := 200; body := VNull |}
  /\ invoke MAX_RETRIES null_body_remote no_number demo_client (GetRaindrop (VNum 7)) []
     = Some (Throw (JsTypeError "item"),
             retry_trace MAX_RETRIES
               (request_of no_number demo_client (GetRaindrop (VNum 7))) 2)
  /\ (forall v w,
        invoke MAX_RETRIES null_body_remote no_number demo_client
          (GetRaindrop (VNum 7)) []
        <> Some (Return v, w))
  /\ exists w,
       handleCallTool null_body_remote no_number no_rendering no_message "token"
         false get_bookmark_7 []
       = Some (Return (failure "Error: TypeError"), w).
Proof.
  split; [reflexivity|]. split; [reflexivity|]. split; [reflexivity|].
  split; [reflexivity|]. split.
  - intros v w H. vm_compute in H. discriminate.
  - eexists. reflexivity.
Qed.

(** C1, amended.  For every operation of the client: when the first
    [n <= 3] HTTP attempts are rejected with a retryable classification
    and the next one is fulfilled, the operation completes with what it
    makes of that response; the trace holds exactly the original attempt
    and [n] retries; retry number [k] (counted from 0) comes right after
    a delay of [1000 * 2^k] ms; every attempt is the original request
    (method, path, query, body, headers), only the counter differing; and
    the operation returns a value exactly when it is one that returns
    nothing or the body of the response is neither [null] nor
    [undefined], and throws a TypeError otherwise. *)
Theorem retry_then_success :
  forall (remote : nat -> AxiosRequestConfig -> Outcome)
         (StringToNumber : string -> option Z) (clientConfig : RaindropConfig)
         (op : Operation) (w : World) (n : nat) (r : AxiosResponse),
    (n <= 3)%nat ->
    (forall i, (i < n)%nat ->
       retryable (remote (attempts w + i)%nat
                    (attempt_config (request_of StringToNumber clientConfig op) i))
       = true) ->
    remote (attempts w + n)%nat
      (attempt_config (request_of StringToNumber clientConfig op) n)
    = Fulfilled r ->
    exists trace,
      invoke MAX_RETRIES remote StringToNumber clientConfig op w
      = Some (result_of op r, w ++ trace)
      /\ requests trace
         = map (attempt_config (request_of StringToNumber clientConfig op))
               (seq 0 (S n))
      /\ length (requests trace) = S n
      /\ delays trace = map (fun k => 1000 * 2 ^ Z.of_nat k) (seq 0 n)
      /\ (forall k, (k < n)%nat ->
            exists before after,
              trace = before
                      ++ EvDelay (1000 * 2 ^ Z.of_nat k)
                      :: EvRequest (attempt_config
                                      (request_of StringToNumber clientConfig op) (S k))
                      :: after)
      /\ Forall (same_request (request_of StringToNumber clientConfig op))
                (requests trace)
      /\ ((exists v, result_of op r = Return v)
          <-> returns_nothing op = true \/ nullish (body r) = false)
      /\ (returns_nothing op = false -> nullish (body r) = true ->
          exists k, result_of op r = Throw (JsTypeError k)).
Proof.
  intros remote S2N cfg op w n r Hn Hfail Hok.
  set (c := request_of S2N cfg op) in *.
  exists (retry_trace MAX_RETRIES c n).
  assert (Hc : retryCount_of c = 0%nat) by apply request_of_fresh.
  split; [|split; [|split; [|split; [|split; [|split; [|split]]]]]].
  - apply invoke_retry_then_success; assumption.
  - apply requests_retry_trace.
  - rewrite requests_retry_trace, length_map, length_seq. reflexivity.
  - rewrite delays_retry_trace. apply map_ext. intros k. rewrite Hc. reflexivity.
  - intros k Hk.
    destruct (retry_trace_delay_then_request MAX_RETRIES n c k Hk)
      as (before & after & Heq).
    exists before, after. rewrite Heq, Hc. reflexivity.
  - rewrite requests_retry_trace. apply Forall_same_request.
  - apply result_of_returns.
  - apply result_of_throws.
Qed.

Lemma retry_then_success_witness :
  exists trace,
    invoke MAX_RETRIES flaky_remote no_number demo_client (GetRaindrop (VNum 7)) []
    = Some (Return (VObj [("_id", VNum 7)]), trace)
    /\ length (requests trace) = 3%nat
    /\ delays trace = [1000; 2000].
Proof.
  destruct (retry_then_success flaky_remote no_number demo_client
              (GetRaindrop (VNum 7)) [] 2
              {| status := 200; body := VObj [("item", VObj [("_id", VNum 7)])] |})
    as (trace & Hrun & _ & Hlen & Hdelays & _).
  - lia.
  - intros i Hi. destruct i as [|[|i]]; [reflexivity|reflexivity|lia].
  - reflexivity.
  - exists trace. split; [exact Hrun|]. split; [exact Hlen|exact Hdelays].
Defined.

(** C2.  For every operation of the client: whatever the remote end
    does, the operation completes, after at most four HTTP attempts; and
    when the first four attempts are all rejected with a retryable
    classification, it makes exactly four attempts (the original and
    three retries, the counter going 1, 2, 3), waits 1000, 2000 and
    4000 ms between them, and throws the classified message of the fourth
    failure. *)
Theorem retry_budget_exhausted :
  forall (remote : nat -> AxiosRequestConfig -> Outcome)
         (StringToNumber : string -> option Z) (clientConfig : RaindropConfig)
         (op : Operation) (w : World),
    (exists res trace,
        invoke MAX_RETRIES remote StringToNumber clientConfig op w
        = Some (res, w ++ trace)
        /\ (attempts trace <= 4)%nat)
    /\ ((forall i, (i <= 3)%nat ->
           retryable (remote (attempts w + i)%nat
                        (attempt_config (request_of StringToNumber clientConfig op) i))
           = true) ->
        exists trace,
          invoke MAX_RETRIES remote StringToNumber clientConfig op w
          = Some (Throw (JsError (formatError MAX_RETRIES
                    (error_of (attempt_config (request_of StringToNumber clientConfig op) 3)
                       (remote (attempts w + 3)%nat
                          (attempt_config (request_of StringToNumber clientConfig op) 3))))),
                  w ++ trace)
          /\ requests trace
             = map (attempt_config (request_of StringToNumber clientConfig op))
                   [0; 1; 2; 3]%nat
          /\ attempts trace = 4%nat
          /\ map __retryCount (requests trace) = [None; Some 1; Some 2; Some 3]%nat
          /\ delays trace = [1000; 2000; 4000]).
Proof.
  intros remote S2N cfg op w. split.
  - apply invoke_total.
  - intros Hfail.
    set (c := request_of S2N cfg op) in *.
    assert (Hc : retryCount_of c = 0%nat) by apply request_of_fresh.
    assert (Hr : retryable (remote (attempts w + 3)%nat (attempt_config c 3)) = true)
      by (apply Hfail; lia).
    exists (retry_trace MAX_RETRIES c 3).
    split; [|split; [|split; [|split]]].
    + apply invoke_retry_then_failure.
      * unfold MAX_RETRIES. lia.
      * intros i Hi. apply Hfail. lia.
      * apply retryable_rejected. exact Hr.
      * right. reflexivity.
    + apply requests_retry_trace.
    + unfold attempts. rewrite requests_retry_trace. reflexivity.
    + rewrite requests_retry_trace. cbn [seq map attempt_config].
      unfold set_retryCount. cbn [__retryCount]. rewrite Hc.
      unfold c. rewrite retryCount_request_of. reflexivity.
    + rewrite delays_retry_trace, Hc. reflexivity.
Qed.

Lemma retry_budget_exhausted_witness :
  exists trace,
    invoke MAX_RETRIES down_remote no_number demo_client GetTags []
    = Some (Throw (JsError
        "Raindrop.io server error (503): The service is temporarily unavailable. Already retried 3 times."),
            trace)
    /\ attempts trace = 4%nat
    /\ delays trace = [1000; 2000; 4000].
Proof.
  destruct (retry_budget_exhausted down_remote no_number demo_client GetTags [])
    as [_ Hall].
  destruct Hall as (trace & Hrun & _ & Hlen & _ & Hdelays).
  - intros i _. reflexivity.
  - exists trace. split; [exact Hrun|]. split; [exact Hlen|exact Hdelays].
Defined.

(** *** Classification *)

Lemma isRetryableError_iff (e : AxiosError) :
  isRetryableError e = true
  <-> (response e = None
       \/ exists r, response e = Some r
                    /\ (status r = 429 \/ 500 <= status r <= 599)).
Proof.
  unfold isRetryableError. destruct (response e) as [r|].
  - rewrite orb_true_iff, andb_true_iff, Z.eqb_eq, Z.leb_le, Z.ltb_lt. split.
    + intros H. right. exists r. split; [reflexivity|]. lia.
    + intros [H|(r' & Hr' & H)]; [discriminate|].
      injection Hr' as <-. lia.
  - split; [intros _; left; reflexivity|reflexivity].
Qed.

(** C3.  (1) A failed attempt is classified retryable exactly when no
    response was received or the status is 429 or lies in [500, 599];
    (2) so the statuses 400, 401, 403 and 404 are terminal; (3) for every
    retry budget and every operation, a rejection with a terminal
    classification, whether it answers the original attempt ([n = 0]) or
    comes after [n] retried ones, ends the call at once: the operation
    throws the classified message of that failure and no attempt and no
    delay follows it.  In particular a terminal answer to the original
    attempt leaves a trace of that one attempt. *)
Theorem terminal_failure_not_retried :
  (forall e : AxiosError,
      isRetryableError e = true
      <-> (response e = None
           \/ exists r, response e = Some r
                        /\ (status r = 429 \/ 500 <= status r <= 599)))
  /\ (forall (e : AxiosError) (r : AxiosResponse),
         response e = Some r -> In (status r) [400; 401; 403; 404] ->
         isRetryableError e = false)
  /\ (forall (budget : nat) (remote : nat -> AxiosRequestConfig -> Outcome)
             (StringToNumber : string -> option Z) (clientConfig : RaindropConfig)
             (op : Operation) (w : World) (n : nat),
         (n <= budget)%nat ->
         (forall i, (i < n)%nat ->
            retryable (remote (attempts w + i)%nat
                         (attempt_config (request_of StringToNumber clientConfig op) i))
            = true) ->
         terminal (remote (attempts w + n)%nat
                     (attempt_config (request_of StringToNumber clientConfig op) n))
         = true ->
         invoke budget remote StringToNumber clientConfig op w
         = Some (Throw (JsError (formatError budget
                   (error_of (attempt_config (request_of StringToNumber clientConfig op) n)
                      (remote (attempts w + n)%nat
                         (attempt_config (request_of StringToNumber clientConfig op) n))))),
                 w ++ retry_trace budget (request_of StringToNumber clientConfig op) n)
         /\ attempts (retry_trace budget (request_of StringToNumber clientConfig op) n)
            = S n
         /\ retry_trace budget (request_of StringToNumber clientConfig op) 0
            = [EvRequest (request_of StringToNumber clientConfig op)]).
Proof.
  split; [exact isRetryableError_iff|]. split.
  - intros e r Hr Hin. unfold isRetryableError. rewrite Hr.
    simpl in Hin. destruct Hin as [<-|[<-|[<-|[<-|[]]]]]; reflexivity.
  - intros budget remote S2N cfg op w n Hn Hfail Hterm.
    split; [|split].
    + apply invoke_retry_then_failure; try assumption.
      * apply terminal_rejected. exact Hterm.
      * left. apply terminal_not_retryable. exact Hterm.
    + unfold attempts. rewrite requests_retry_trace, length_map, length_seq.
      reflexivity.
    + reflexivity.
Qed.

Lemma terminal_failure_not_retried_witness :
  invoke MAX_RETRIES missing_remote no_number demo_client (GetRaindrop (VNum 7)) []
  = Some (Throw (JsError
      "Not found: The requested resource does not exist. It may have been deleted. DO NOT RETRY."),
          [EvRequest (request_of no_number demo_client (GetRaindrop (VNum 7)))]).
Proof.
  destruct terminal_failure_not_retried as (_ & _ & H).
  destruct (H MAX_RETRIES missing_remote no_number demo_client
              (GetRaindrop (VNum 7)) [] 0%nat) as (Hrun & _ & _).
  - lia.
  - intros i Hi. lia.
  - reflexivity.
  - exact Hrun.
Defined.

(* ================================================================== *)
(** ** Payloads *)
(* ================================================================== *)

Lemma defined_false (v : Value) : defined v = false -> v = VUndefined.
Proof. destruct v; simpl; intros H; (reflexivity || discriminate). Qed.

(** Case analysis on every test [defined (get k params)] of the goal. *)
Ltac split_defined :=
  repeat match goal with
         | |- context [defined (get ?k ?p)] =>
             let E := fresh "E" in
             destruct (defined (get k p)) eqn:E;
             [| try (apply defined_false in E) ]
         end.

(** Case analysis on every test [truthy (get k params)] of the goal. *)
Ltac split_truthy :=
  repeat match goal with
         | |- context [truthy (get ?k ?p)] =>
             let E := fresh "E" in
             destruct (truthy (get k p)) eqn:E
         end.

(** C4.  For every input of [updateRaindrop] and of [updateCollection]:
    the keys of the outgoing body are exactly the declared fields the
    input defines (a value other than [undefined]), in the order of the
    source, [collectionId] travelling as [collection]; every such field
    carries the input's value unchanged, [collectionId] and [parent] as
    the nested reference [{ $id }]; 0, [false], the empty string and
    the empty array count as defined; and that body is the [data] of the
    request the operation sends. *)
Theorem update_forwards_defined_fields :
  forall params : Obj,
    keys (updateRaindrop_data params)
    = map outgoing_key
          (filter (fun f => defined (get f params)) raindrop_update_fields)
    /\ Forall (fun f => get f (updateRaindrop_data params) = get f params)
              ["title"; "excerpt"; "note"; "tags"; "important"]
    /\ get "collection" (updateRaindrop_data params)
       = (if defined (get "collectionId" params)
          then ref (get "collectionId" params) else VUndefined)
    /\ keys (updateCollection_data params)
       = filter (fun f => defined (get f params)) collection_update_fields
    /\ Forall (fun f => get f (updateCollection_data params) = get f params)
              ["title"; "description"; "public"; "view"]
    /\ get "parent" (updateCollection_data params)
       = (if defined (get "parent" params)
          then ref (get "parent" params) else VUndefined)
    /\ Forall (fun v => defined v = true)
              [VNum 0; VBool false; VStr ""; VArr []]
    /\ (forall (StringToNumber : string -> option Z) (clientConfig : RaindropConfig)
               (id : Value),
           data (request_of StringToNumber clientConfig (UpdateRaindrop id params))
           = VObj (updateRaindrop_data params)
           /\ data (request_of StringToNumber clientConfig (UpdateCollection id params))
              = VObj (updateCollection_data params)).
Proof.
  intros params.
  unfold updateRaindrop_data, updateCollection_data, raindrop_update_fields,
    collection_update_fields.
  cbn [filter].
  repeat match goal with |- _ /\ _ => split end.
  - split_defined; reflexivity.
  - repeat constructor; split_defined; cbn; congruence.
  - split_defined; reflexivity.
  - split_defined; reflexivity.
  - repeat constructor; split_defined; cbn; congruence.
  - split_defined; reflexivity.
  - repeat constructor.
  - intros S2N cfg id. split; reflexivity.
Qed.

Example update_keeps_falsy_values :
  updateRaindrop_data
    [("title", VStr ""); ("tags", VArr []); ("important", VBool false);
     ("collectionId", VNum 0)]
  = [("title", VStr ""); ("tags", VArr []); ("important", VBool false);
     ("collection", ref (VNum 0))].
Proof. reflexivity. Qed.

(** C5.  For every input of [createRaindrop]: the body always carries
    [pleaseParse]; it has no [collection] when [collectionId] is absent or
    0; and for every other integer [v] it carries
    [collection: { $id: v }].  That body is the [data] of the request. *)
Theorem create_bookmark_collection_reference :
  forall params : Obj,
    has "pleaseParse" (createRaindrop_data params) = true
    /\ get "pleaseParse" (createRaindrop_data params) = VObj []
    /\ (get "collectionId" params = VUndefined \/ get "collectionId" params = VNum 0 ->
        has "collection" (createRaindrop_data params) = false)
    /\ (forall v : Z, v <> 0 -> get "collectionId" params = VNum v ->
        has "collection" (createRaindrop_data params) = true
        /\ get "collection" (createRaindrop_data params) = ref (VNum v))
    /\ (forall (StringToNumber : string -> option Z) (clientConfig : RaindropConfig),
           data (request_of StringToNumber clientConfig (CreateRaindrop params))
           = VObj (createRaindrop_data params)).
Proof.
  intros params. unfold createRaindrop_data.
  repeat match goal with |- _ /\ _ => split end.
  - destruct (is_not_zero _); split_truthy; split_defined; reflexivity.
  - destruct (is_not_zero _); split_truthy; split_defined; reflexivity.
  - intros [H|H]; rewrite H; cbn [or_else truthy is_not_zero Z.eqb negb];
      split_truthy; split_defined; reflexivity.
  - intros v Hv H. rewrite H.
    assert (Ht : truthy (VNum v) = true)
      by (simpl; destruct (Z.eqb_spec v 0); [contradiction|reflexivity]).
    assert (Hz : is_not_zero (VNum v) = true)
      by (destruct v; [contradiction|reflexivity|reflexivity]).
    unfold or_else. rewrite Ht, Hz.
    split; split_truthy; split_defined; reflexivity.
  - intros S2N cfg. reflexivity.
Qed.

Lemma create_bookmark_collection_reference_witness :
  has "collection" (createRaindrop_data [("link", VStr "https://example.com"); ("collectionId", VNum 0)])
  = false
  /\ get "collection" (createRaindrop_data [("link", VStr "https://example.com"); ("collectionId", VNum 5)])
     = ref (VNum 5)
  /\ get "collection" (createRaindrop_data [("link", VStr "https://example.com"); ("collectionId", VNum (-1))])
     = ref (VNum (-1)).
Proof.
  split; [|split].
  - apply (create_bookmark_collection_reference
             [("link", VStr "https://example.com"); ("collectionId", VNum 0)]).
    right. reflexivity.
  - apply (create_bookmark_collection_reference
             [("link", VStr "https://example.com"); ("collectionId", VNum 5)] ).
    + lia.
    + reflexivity.
  - apply (create_bookmark_collection_reference
             [("link", VStr "https://example.com"); ("collectionId", VNum (-1))] ).
    + lia.
    + reflexivity.
Defined.

(** C6, as stated, fails: a filter that provides the empty query and
    page 0 explicitly produces the query object, and the whole request, of
    the filter that omits both. *)
Lemma search_confuses_explicit_empty_with_omitted :
  has "search" explicit_empty_filter = true
  /\ get "search" explicit_empty_filter = VStr ""
  /\ has "page" explicit_empty_filter = true
  /\ get "page" explicit_empty_filter = VNum 0
  /\ searchRaindrops_query no_number explicit_empty_filter = []
  /\ request_of no_number demo_client (SearchRaindrops (Some explicit_empty_filter))
     = request_of no_number demo_client (SearchRaindrops (Some [])).
Proof. repeat split. Qed.

(** C6, amended.  For every search filter: the path targets collection 0
    when no [collectionId] is given, and -1 when it is -1; the query
    parameters are exactly the fields that pass the truthiness test of
    the source (a non-empty [search], a non-empty [sort], a non-zero
    [perpage], a non-zero [page], a [tag] of length above 0), each with
    the input's value; so an empty string, a zero and an empty array are
    dropped as an omitted field is. *)
Theorem search_forwards_truthy_fields :
  forall (StringToNumber : string -> option Z) (p : Obj),
    (get "collectionId" p = VUndefined ->
     searchRaindrops_path p = "/raindrops/0")
    /\ (get "collectionId" p = VNum (-1) ->
        searchRaindrops_path p = "/raindrops/-1")
    /\ keys (searchRaindrops_query StringToNumber p)
       = filter (forwarded StringToNumber p) search_query_fields
    /\ Forall (fun f =>
                 get f (searchRaindrops_query StringToNumber p)
                 = if forwarded StringToNumber p f
                   then get f p else VUndefined)
              search_query_fields
    /\ Forall (fun v => truthy v = false) [VUndefined; VStr ""; VNum 0]
    /\ (get "tag" p = VArr [] -> forwarded StringToNumber p "tag" = false)
    /\ (forall clientConfig : RaindropConfig,
           url (request_of StringToNumber clientConfig (SearchRaindrops (Some p)))
           = searchRaindrops_path p
           /\ params
                (request_of StringToNumber clientConfig (SearchRaindrops (Some p)))
              = VObj (searchRaindrops_query StringToNumber p)
           /\ url (request_of StringToNumber clientConfig (SearchRaindrops None))
              = "/raindrops/0").
Proof.
  intros S2N p.
  repeat match goal with |- _ /\ _ => split end.
  - intros H. unfold searchRaindrops_path. rewrite H. reflexivity.
  - intros H. unfold searchRaindrops_path. rewrite H. reflexivity.
  - unfold searchRaindrops_query, search_query_fields, forwarded.
    cbn [filter String.eqb Ascii.eqb Bool.eqb].
    destruct (greater_than S2N _ 0); split_truthy; reflexivity.
  - unfold searchRaindrops_query, search_query_fields, forwarded.
    repeat constructor; cbn [String.eqb Ascii.eqb Bool.eqb];
      destruct (greater_than S2N _ 0); split_truthy; reflexivity.
  - repeat constructor.
  - intros H. unfold forwarded. cbn [String.eqb Ascii.eqb Bool.eqb].
    rewrite H. reflexivity.
  - intros cfg. repeat split.
Qed.

Lemma search_forwards_truthy_fields_witness :
  searchRaindrops_path [("search", VStr "rocq")] = "/raindrops/0"
  /\ searchRaindrops_path [("collectionId", VNum (-1))] = "/raindrops/-1"
  /\ forwarded no_number [("tag", VArr [])] "tag" = false.
Proof.
  split; [|split].
  - apply (search_forwards_truthy_fields no_number [("search", VStr "rocq")]).
    reflexivity.
  - apply (search_forwards_truthy_fields no_number [("collectionId", VNum (-1))]).
    reflexivity.
  - apply (search_forwards_truthy_fields no_number [("tag", VArr [])]).
    reflexivity.
Defined.

(** C10.  For every input of [createCollection]: the body has [title],
    and of the optional fields exactly those that pass the test of the
    source: [public] when it is defined, [description], [view] and
    [parent] only when they are truthy.  So a description or a view given
    as the empty string and a parent given as 0 are left out, as if they
    were absent, while [public: false] is kept; [updateCollection], on the
    same input, forwards all four. *)
Theorem create_collection_drops_falsy_fields :
  forall params : Obj,
    keys (createCollection_data params)
    = "title" :: filter (copied_on_create params) collection_create_fields
    /\ filter (copied_on_create
                  [("description", VStr ""); ("public", VBool false);
                   ("view", VStr ""); ("parent", VNum 0)])
               collection_create_fields
       = ["public"]
    /\ (forall title : string,
          createCollection_data
            [("title", VStr title); ("description", VStr "");
             ("public", VBool false); ("view", VStr ""); ("parent", VNum 0)]
          = [("title", VStr title); ("public", VBool false)]
          /\ createCollection_data [("title", VStr title); ("public", VBool false)]
             = [("title", VStr title); ("public", VBool false)]
          /\ updateCollection_data
               [("title", VStr title); ("description", VStr "");
                ("public", VBool false); ("view", VStr ""); ("parent", VNum 0)]
             = [("title", VStr title); ("description", VStr "");
                ("public", VBool false); ("view", VStr "");
                ("parent", ref (VNum 0))]).
Proof.
  intros params. split; [|split].
  - unfold createCollection_data, collection_create_fields, copied_on_create.
    cbn [filter String.eqb Ascii.eqb Bool.eqb].
    split_truthy; split_defined; reflexivity.
  - reflexivity.
  - intros title. unfold createCollection_data, updateCollection_data.
    cbn [get String.eqb Ascii.eqb Bool.eqb truthy defined Z.eqb negb].
    split; [|split]; reflexivity.
Qed.

(* ================================================================== *)
(** ** The dispatcher *)
(* ================================================================== *)

Lemma append_nil_r (s : string) : (s ++ "")%string = s.
Proof. induction s as [|a s IH]; simpl; [reflexivity|rewrite IH; reflexivity]. Qed.

Lemma append_assoc (s t u : string) :
  ((s ++ t) ++ u)%string = (s ++ t ++ u)%string.
Proof. induction s as [|a s IH]; simpl; [reflexivity|rewrite IH; reflexivity]. Qed.

Lemma prefix_app (s t : string) : String.prefix s (s ++ t)%string = true.
Proof.
  induction s as [|a s IH]; simpl.
  - destruct t; reflexivity.
  - destruct (Ascii.ascii_dec a a) as [_|Hne]; [exact IH|contradiction].
Qed.

Lemma contains_unfold (needle hay : string) :
  contains needle hay
  = String.prefix needle hay
    || match hay with
       | EmptyString => false
       | String _ hay' => contains needle hay'
       end.
Proof. destruct hay; reflexivity. Qed.

Lemma contains_skip (needle pre hay : string) :
  contains needle hay = true -> contains needle (pre ++ hay)%string = true.
Proof.
  intros H. induction pre as [|a pre IH]; [exact H|].
  change (contains needle (String a (pre ++ hay)%string) = true).
  rewrite contains_unfold, IH. apply orb_true_r.
Qed.

Lemma contains_here (needle post : string) :
  contains needle (needle ++ post)%string = true.
Proof. rewrite contains_unfold, prefix_app. reflexivity. Qed.

Lemma not_in_tools (name : string) :
  ~ In name tools -> existsb (String.eqb name) tools = false.
Proof.
  intros Hn. destruct (existsb (String.eqb name) tools) eqn:E; [|reflexivity].
  apply existsb_exists in E as (t & Hin & Heq).
  apply String.eqb_eq in Heq. subst t. contradiction.
Qed.

Lemma contains_concat (sep : string) (l : list string) (t : string) :
  In t l -> exists pre post, String.concat sep l = (pre ++ t ++ post)%string.
Proof.
  induction l as [|x l IH]; intros Hin; [contradiction|].
  destruct Hin as [->|Hin].
  - destruct l as [|y l].
    + exists ""%string, ""%string. simpl. rewrite append_nil_r. reflexivity.
    + exists ""%string, (sep ++ String.concat sep (y :: l))%string. reflexivity.
  - destruct (IH Hin) as (pre & post & Heq).
    destruct l as [|y l]; [contradiction|].
    exists (x ++ sep ++ pre)%string, post.
    change (String.concat sep (x :: y :: l))
      with (x ++ sep ++ String.concat sep (y :: l))%string.
    rewrite Heq, !append_assoc. reflexivity.
Qed.

Lemma selected_unknown (name : string) (args : option Obj) :
  existsb (String.eqb name) tools = false -> selected name args = None.
Proof.
  unfold tools. cbn [existsb]. intros H.
  repeat (apply orb_false_iff in H; destruct H as [? H]).
  unfold selected.
  repeat match goal with
         | E : String.eqb name _ = false |- _ => rewrite E; clear E
         end.
  reflexivity.
Qed.

Section DispatcherFacts.

Variable remote : nat -> AxiosRequestConfig -> Outcome.
Variable StringToNumber : string -> option Z.
Variable JSON_stringify : Value -> string.
Variable typeErrorMessage : string -> string.
Variable API_TOKEN : string.

Local Abbreviation run_tool :=
  (callTool remote StringToNumber JSON_stringify API_TOKEN).

Local Abbreviation answered :=
  (dispatched remote StringToNumber JSON_stringify API_TOKEN).

Ltac runs_operation :=
  left; eexists; split; [reflexivity|];
  unfold dispatched, invoke, bind, dereference, ret; cbv beta iota zeta;
  match goal with
  | |- context [match ?m ?w with _ => _ end] =>
      destruct (m w) as [[[?|?] ?]|]
  end; reflexivity.

Ltac reads_arguments args :=
  destruct args as [o|];
  [ runs_operation
  | right; left; split; [reflexivity|]; eexists; reflexivity ].

(** The three ways of the switch: an operation of the client is run and
    its result rendered; or the argument bag is missing where the case
    reads it; or the name is no case. *)
Lemma callTool_cases (name : string) (args : option Obj) (w : World) :
  (exists op, selected name args = Some op
              /\ run_tool name args w = answered op w)
  \/ (selected name args = None
      /\ exists k, run_tool name args w = Some (Throw (JsTypeError k), w))
  \/ (existsb (String.eqb name) tools = false
      /\ run_tool name args w
         = Some (Return (failure (unknownToolText name)), w)).
Proof.
  unfold callTool, selected.
  destruct (String.eqb name "search_bookmarks") eqn:E1; cbv beta iota;
    [runs_operation|].
  destruct (String.eqb name "get_bookmark") eqn:E2; cbv beta iota;
    [reads_arguments args|].
  destruct (String.eqb name "create_bookmark") eqn:E3; cbv beta iota;
    [reads_arguments args|].
  destruct (String.eqb name "update_bookmark") eqn:E4; cbv beta iota;
    [reads_arguments args|].
  destruct (String.eqb name "delete_bookmark") eqn:E5; cbv beta iota;
    [reads_arguments args|].
  destruct (String.eqb name "list_collections") eqn:E6; cbv beta iota;
    [runs_operation|].
  destruct (String.eqb name "get_collection") eqn:E7; cbv beta iota;
    [reads_arguments args|].
  destruct (String.eqb name "create_collection") eqn:E8; cbv beta iota;
    [reads_arguments args|].
  destruct (String.eqb name "update_collection") eqn:E9; cbv beta iota;
    [reads_arguments args|].
  destruct (String.eqb name "delete_collection") eqn:E10; cbv beta iota;
    [reads_arguments args|].
  destruct (String.eqb name "list_tags") eqn:E11; cbv beta iota;
    [runs_operation|].
  destruct (String.eqb name "rename_tag") eqn:E12; cbv beta iota;
    [reads_arguments args|].
  destruct (String.eqb name "delete_tag") eqn:E13; cbv beta iota;
    [reads_arguments args|].
  destruct (String.eqb name "get_user_info") eqn:E14; cbv beta iota;
    [runs_operation|].
  right; right. split; [|reflexivity].
  unfold tools. cbn [existsb].
  rewrite E1, E2, E3, E4, E5, E6, E7, E8, E9, E10, E11, E12, E13, E14.
  reflexivity.
Qed.

End DispatcherFacts.

(* ================================================================== *)
(** ** The shutdown sequence *)
(* ================================================================== *)

Lemma next_due_le (ts : list Z) (t : Z) :
  In t ts -> exists d, next_due ts = Some d /\ d <= t.
Proof.
  induction ts as [|a ts IH]; intros Hin; [contradiction|].
  simpl. destruct Hin as [->|Hin].
  - destruct (next_due ts) as [d|]; eexists; split; try reflexivity; lia.
  - destruct (IH Hin) as (d & -> & Hd). eexists; split; [reflexivity|lia].
Qed.

Lemma shutdown_draining (signal : string) (p : Process) :
  exited p = None -> draining (now p + GRACE_MS) (shutdown signal p).
Proof.
  intros Hp. unfold draining, shutdown, console_error, GRACE_MS; cbn.
  repeat split.
  - apply in_or_app. right. left. reflexivity.
  - intros _. lia.
  - intros x Hx. congruence.
Qed.

Lemma step_draining (T : Z) (e : ProcessEvent) (q : Process) :
  draining T q -> draining T (step e q).
Proof.
  intros (Hflag & Hin & Halive & Hdead). unfold step.
  destruct (exited q) as [x|] eqn:Hx.
  - unfold draining. rewrite Hx. auto.
  - specialize (Halive eq_refl).
    assert (Hlater : forall ts, In T (timers q ++ ts))
      by (intros ts; apply in_or_app; left; exact Hin).
    destruct e as [signal|dt|[|] errno|errno|];
      try (destruct (String.eqb errno "EPIPE"));
      try (unfold elapse;
           destruct (next_due_le _ _ Hin) as (d & -> & Hd);
           destruct (Z.leb_spec d (now q + Z.max 0 dt)));
      unfold draining, shutdown, process_exit, console_error; cbn;
      rewrite ?Hx; repeat split; auto; try discriminate; try lia;
      intros y Hy; injection Hy as <-; cbn; lia.
Qed.

Lemma run_draining (T : Z) (events : list ProcessEvent) :
  forall q, draining T q -> draining T (run events q).
Proof.
  induction events as [|e events IH]; intros q Hq; [exact Hq|].
  apply IH. apply step_draining. exact Hq.
Qed.

(** While the flag is down no exit timer is pending. *)
Lemma step_running_no_timer (e : ProcessEvent) (q : Process) :
  (isShuttingDown q = false -> timers q = []) ->
  isShuttingDown (step e q) = false -> timers (step e q) = [].
Proof.
  intros Hq. unfold step. destruct (exited q); [exact Hq|].
  destruct e as [signal|dt|[|] errno|errno|]; cbn.
  - discriminate.
  - unfold elapse. destruct (next_due (timers q)) as [d|]; [|exact Hq].
    destruct (d <=? now q + Z.max 0 dt); exact Hq.
  - destruct (String.eqb errno "EPIPE"); exact Hq.
  - destruct (String.eqb errno "EPIPE"); exact Hq.
  - destruct (String.eqb errno "EPIPE"); exact Hq.
  - exact Hq.
Qed.

Lemma running_no_timer (events : list ProcessEvent) :
  forall q,
    (isShuttingDown q = false -> timers q = []) ->
    isShuttingDown (run events q) = false -> timers (run events q) = [].
Proof.
  induction events as [|e events IH]; intros q Hq; [exact Hq|].
  apply IH. apply step_running_no_timer. exact Hq.
Qed.

(** Entering the shutdown state from a state without pending timer: the
    process exits when 5000 ms have passed, with code 0, and not before. *)
Lemma shutdown_then_elapse (signal : string) (p : Process) (dt : Z) :
  exited p = None -> timers p = [] ->
  exited (step (Elapse dt) (step (Signal signal) p))
  = if 5000 <=? dt
    then Some {| code := 0; at_ms := now p + 5000 |}
    else None.
Proof.
  intros Hx Ht. unfold step. rewrite Hx. cbn [shutdown console_error exited].
  rewrite Hx. unfold elapse. cbn [timers now shutdown console_error].
  rewrite Ht. cbn [app next_due]. unfold GRACE_MS.
  destruct (Z.leb_spec 5000 dt); destruct (Z.leb_spec (now p + 5000) (now p + Z.max 0 dt));
    try lia; cbn; [|exact Hx].
  f_equal. f_equal. lia.
Qed.

Section DispatcherClaims.

Variable remote : nat -> AxiosRequestConfig -> Outcome.
Variable StringToNumber : string -> option Z.
Variable JSON_stringify : Value -> string.
Variable typeErrorMessage : string -> string.
Variable API_TOKEN : string.

Local Abbreviation handle :=
  (handleCallTool remote StringToNumber JSON_stringify typeErrorMessage API_TOKEN).
Local Abbreviation run_tool :=
  (callTool remote StringToNumber JSON_stringify API_TOKEN).




(** C8, amended.  While the server is not shutting down, a call whose
    tool name is none of the fourteen registered names is answered (not
    thrown) with an error-flagged response; its text names every one of
    the fourteen tools and tells the caller not to retry with the same
    name; and the trace is unchanged, so no remote call is made.  In either
    state such a call is answered with an error-flagged response and
    without a remote call. *)
Theorem unknown_tool_is_reported :
  forall (req : CallToolRequest) (w : World),
    ~ In (name req) tools ->
    handle false req w
    = Some (Return (failure (unknownToolText (name req))), w)
    /\ Forall (fun t => contains t (unknownToolText (name req)) = true) tools
    /\ length tools = 14%nat
    /\ NoDup tools
    /\ contains "DO NOT RETRY with the same tool name."
                (unknownToolText (name req)) = true
    /\ (forall shuttingDown : bool,
           exists result,
             handle shuttingDown req w = Some (Return result, w)
             /\ isError result = true).
Proof.
  intros req w Hn. apply not_in_tools in Hn.
  assert (Hrun : handle false req w
                 = Some (Return (failure (unknownToolText (name req))), w)).
  { unfold handleCallTool, try_catch.
    destruct (callTool_cases remote StringToNumber JSON_stringify API_TOKEN
                (name req) (arguments req) w)
      as [(op & Hsel & _)|[(_ & k & Hk)|(_ & ->)]].
    - rewrite (selected_unknown _ _ Hn) in Hsel. discriminate.
    - exfalso. revert Hk. unfold callTool. revert Hn. unfold tools. cbn [existsb].
      intros H. repeat (apply orb_false_iff in H; destruct H as [? H]).
      repeat match goal with
             | E : String.eqb (name req) _ = false |- _ => rewrite E; clear E
             end.
      discriminate.
    - reflexivity. }
  split; [exact Hrun|]. split; [|split; [|split; [|split]]].
  - apply Forall_forall. intros t Hin.
    destruct (contains_concat ", " tools t Hin) as (pre & post & Heq).
    unfold unknownToolText. rewrite Heq, !append_assoc.
    apply (contains_skip _ "Unknown tool: "), contains_skip,
      (contains_skip _ ". Available tools: "), contains_skip, contains_here.
  - reflexivity.
  - unfold tools.
    repeat (constructor; [cbn; intuition discriminate|]). constructor.
  - unfold unknownToolText.
    apply (contains_skip _ "Unknown tool: "), contains_skip,
      (contains_skip _ ". Available tools: "), contains_skip.
    reflexivity.
  - intros [|].
    + exists (failure shutdown_text). split; reflexivity.
    + exists (failure (unknownToolText (name req))). split; [exact Hrun|reflexivity].
Qed.

(** C9.  While the shutdown flag is up: every call is answered with the
    error-flagged response that tells the caller not to retry
    immediately, and the trace is unchanged, so no operation of the client
    runs; every list request throws.  [shutdown] raises the flag, which no
    later event lowers; from a state without pending timer (every state
    the process reaches with the flag down is one) the process exits with
    code 0 when 5000 ms have passed and not before; and whatever else happens in between, a
    process that is still alive has not reached that instant and one that
    exited did so no later. *)
Theorem shutdown_refuses_work_then_exits :
  (forall (req : CallToolRequest) (w : World),
      handle true req w = Some (Return (failure shutdown_text), w))
  /\ contains "DO NOT RETRY immediately" shutdown_text = true
  /\ (forall w : World,
         handleListTools true w
         = Some (Throw (JsError "Server is shutting down. Please wait and try again."), w))
  /\ (forall (p : Process) (signal : string),
         exited p = None ->
         isShuttingDown (step (Signal signal) p) = true
         /\ (forall events : list ProcessEvent,
                isShuttingDown (run events (step (Signal signal) p)) = true
                /\ (exited (run events (step (Signal signal) p)) = None ->
                    now (run events (step (Signal signal) p)) < now p + 5000)
                /\ (forall x, exited (run events (step (Signal signal) p)) = Some x ->
                              at_ms x <= now p + 5000))
         /\ (timers p = [] ->
             forall dt : Z,
               exited (step (Elapse dt) (step (Signal signal) p))
               = if 5000 <=? dt
                 then Some {| code := 0; at_ms := now p + 5000 |}
                 else None))
  /\ (forall events : list ProcessEvent,
         isShuttingDown (run events initial) = false ->
         timers (run events initial) = []).
Proof.
  split; [reflexivity|]. split; [reflexivity|]. split; [reflexivity|]. split.
  - intros p signal Hp.
    assert (Hd : draining (now p + GRACE_MS) (step (Signal signal) p)).
    { unfold step. rewrite Hp. apply shutdown_draining. exact Hp. }
    split; [apply Hd|]. split.
    + intros events.
      destruct (run_draining _ events _ Hd) as (Hflag & _ & Halive & Hdead).
      split; [exact Hflag|]. split; [exact Halive|exact Hdead].
    + intros Ht dt. apply shutdown_then_elapse; assumption.
  - intros events. apply running_no_timer. reflexivity.
Qed.

End DispatcherClaims.



(** C8, as stated, fails: while the server is shutting down, a call of an
    unregistered name gets the shutdown response, which names no tool and
    says nothing about the tool name. *)
Lemma unknown_tool_while_shutting_down :
  existsb (String.eqb (name frobnicate)) tools = false
  /\ handleCallTool missing_remote no_number no_rendering no_message "token"
       true frobnicate []
     = Some (Return (failure shutdown_text), [])
  /\ existsb (fun t => contains t shutdown_text) tools = false
  /\ contains "DO NOT RETRY with the same tool name" shutdown_text = false.
Proof. repeat split. Qed.

Lemma unknown_tool_is_reported_witness :
  handleCallTool missing_remote no_number no_rendering no_message "token"
    false frobnicate []
  = Some (Return (failure
      "Unknown tool: frobnicate. Available tools: search_bookmarks, get_bookmark, create_bookmark, update_bookmark, delete_bookmark, list_collections, get_collection, create_collection, update_collection, delete_collection, list_tags, rename_tag, delete_tag, get_user_info. DO NOT RETRY with the same tool name."),
          []).
Proof.
  apply (unknown_tool_is_reported missing_remote no_number no_rendering
           no_message "token" frobnicate []).
  intros H. simpl in H. intuition discriminate.
Defined.

Lemma shutdown_refuses_work_then_exits_witness :
  exited (step (Elapse 5000) (step (Signal "SIGTERM") initial))
  = Some {| code := 0; at_ms := 5000 |}
  /\ exited (step (Elapse 4999) (step (Signal "SIGTERM") initial)) = None.
Proof.
  destruct (shutdown_refuses_work_then_exits missing_remote no_number
              no_rendering no_message "token") as (_ & _ & _ & H & _).
  destruct (H initial "SIGTERM" eq_refl) as (_ & _ & Hexit).
  split.
  - exact (Hexit eq_refl 5000).
  - exact (Hexit eq_refl 4999).
Defined.

(* ================================================================== *)
(** ** Further properties: the course of every call *)
(* ================================================================== *)

Section EveryCall.

Variable budget : nat.
Variable remote : nat -> AxiosRequestConfig -> Outcome.

(** Whatever the remote end does, a call of [this.client] runs through
    some number [k] of retried attempts and ends on the outcome of the
    next call of the adapter, which is retryable only when the budget is
    used up. *)
Lemma request_fuel_course (fuel : nat) :
  forall (c : AxiosRequestConfig) (w : World),
    (budget - retryCount_of c < fuel)%nat ->
    exists k,
      (retryCount_of c + k <= Nat.max budget (retryCount_of c))%nat
      /\ (forall i, (i < k)%nat ->
            retryable (remote (attempts w + i) (attempt_config c i)) = true)
      /\ (retryable (remote (attempts w + k) (attempt_config c k)) = true ->
          (budget <= retryCount_of c + k)%nat)
      /\ request_fuel budget remote fuel c w
         = Some (completion_of budget (attempt_config c k)
                   (remote (attempts w + k) (attempt_config c k)),
                 w ++ retry_prefix budget c k
                   ++ last_attempt (attempt_config c k)
                        (remote (attempts w + k) (attempt_config c k))).
Proof.
  induction fuel as [|fuel IH]; intros c w Hfuel; [lia|].
  destruct (retryable (remote (attempts w) c)) eqn:Hr.
  - destruct (Nat.ltb_spec (retryCount_of c) budget) as [Hlt|Hge].
    + rewrite request_fuel_retry by assumption.
      set (c' := set_retryCount c (retryCount_of c + 1)).
      set (w' := w ++ [EvRequest c; EvLog (retry_line budget (retryCount_of c));
                       EvDelay (backoff (retryCount_of c))]).
      assert (Hc' : retryCount_of c' = (retryCount_of c + 1)%nat) by reflexivity.
      assert (Hw' : attempts w' = (attempts w + 1)%nat)
        by (unfold w'; rewrite attempts_app; reflexivity).
      destruct (IH c' w') as (k & Hk & Hfail & Hlast & Heq); [lia|].
      exists (S k).
      assert (Hshift : forall i, remote (attempts w' + i)%nat (attempt_config c' i)
                                 = remote (attempts w + S i)%nat (attempt_config c (S i))).
      { intros i. unfold c'. rewrite attempt_config_next, Hw'. f_equal. lia. }
      split; [lia|]. split; [|split].
      * intros [|i] Hi.
        -- rewrite Nat.add_0_r. exact Hr.
        -- rewrite <- Hshift. apply Hfail. lia.
      * rewrite <- Hshift. intros H. specialize (Hlast H). lia.
      * rewrite Heq, !Hshift. unfold c'. rewrite attempt_config_next.
        unfold w'. cbn [retry_prefix]. rewrite <- !app_assoc. reflexivity.
    + exists 0%nat. rewrite !Nat.add_0_r. cbn [attempt_config retry_prefix app].
      split; [lia|]. split; [intros i Hi; lia|]. split; [intros _; lia|].
      rewrite request_fuel_gives_up; auto using retryable_rejected.
      destruct (remote (attempts w) c); try discriminate. reflexivity.
  - exists 0%nat. rewrite !Nat.add_0_r. cbn [attempt_config retry_prefix app].
    split; [lia|]. split; [intros i Hi; lia|].
    split; [intros H; congruence|].
    destruct (remote (attempts w) c) as [r|msg resp|msg] eqn:Ho.
    + rewrite (request_fuel_fulfilled _ _ _ _ _ _ Ho). reflexivity.
    + rewrite request_fuel_gives_up; rewrite ?Ho; auto.
    + rewrite (request_fuel_unsent _ _ _ _ _ _ Ho). cbn [last_attempt].
      rewrite app_nil_r. reflexivity.
Qed.

End EveryCall.

Lemma logged_app (w w' : World) : logged (w ++ w') = logged w ++ logged w'.
Proof.
  induction w as [|e w IH]; simpl; [reflexivity|].
  destruct e; simpl; rewrite IH; reflexivity.
Qed.

Lemma delays_last_attempt (c : AxiosRequestConfig) (o : Outcome) :
  delays (last_attempt c o) = [].
Proof. destruct o; reflexivity. Qed.

Lemma logged_last_attempt (c : AxiosRequestConfig) (o : Outcome) :
  logged (last_attempt c o) = [].
Proof. destruct o; reflexivity. Qed.

Lemma logged_retry_prefix (budget : nat) (n : nat) :
  forall c, logged (retry_prefix budget c n)
            = map (fun i => retry_line budget (retryCount_of c + i)) (seq 0 n).
Proof.
  induction n as [|n IH]; intros c; simpl; [reflexivity|].
  f_equal.
  - f_equal. lia.
  - rewrite IH, <- seq_shift, map_map. apply map_ext. intros i.
    rewrite retryCount_set. f_equal. lia.
Qed.

Section EveryOperation.

Variable remote : nat -> AxiosRequestConfig -> Outcome.
Variable StringToNumber : string -> option Z.
Variable clientConfig : RaindropConfig.

Local Abbreviation c_of op := (request_of StringToNumber clientConfig op).

(** The course of an operation: [k <= 3] retried attempts, then the call
    of the adapter that decides. *)
Lemma invoke_course (op : Operation) (w : World) :
  exists k,
    (k <= 3)%nat
    /\ (forall i, (i < k)%nat ->
          retryable (remote (attempts w + i) (attempt_config (c_of op) i)) = true)
    /\ (retryable (remote (attempts w + k) (attempt_config (c_of op) k)) = true ->
        k = 3%nat)
    /\ invoke MAX_RETRIES remote StringToNumber clientConfig op w
       = Some (match remote (attempts w + k) (attempt_config (c_of op) k) with
               | Fulfilled r => result_of op r
               | o => Throw (JsError (formatError MAX_RETRIES
                                        (error_of (attempt_config (c_of op) k) o)))
               end,
               w ++ retry_prefix MAX_RETRIES (c_of op) k
                 ++ last_attempt (attempt_config (c_of op) k)
                      (remote (attempts w + k) (attempt_config (c_of op) k))).
Proof.
  destruct (request_fuel_course MAX_RETRIES remote (S MAX_RETRIES) (c_of op) w)
    as (k & Hk & Hfail & Hlast & Heq).
  - rewrite request_of_fresh. unfold MAX_RETRIES. lia.
  - rewrite request_of_fresh in Hk, Hlast. unfold MAX_RETRIES in Hk, Hlast.
    exists k. split; [lia|]. split; [exact Hfail|]. split.
    + intros H. specialize (Hlast H). lia.
    + rewrite invoke_request. unfold request. rewrite Heq.
      destruct (remote (attempts w + k) (attempt_config (c_of op) k)); reflexivity.
Qed.

End EveryOperation.

(** X1.  Whatever the remote end does, an operation of the client
    completes, and its trace has this shape: the HTTP attempts are all the
    request of the operation, with the retry counter absent, then 1, 2,
    3; the delays are the first [k] of 1000, 2000 and 4000 ms, for some
    [k <= 3], so at most 7000 ms in all; one line is logged per delay;
    and there are [k] or [k + 1] attempts. *)
Theorem every_call_backs_off_in_order :
  forall (remote : nat -> AxiosRequestConfig -> Outcome)
         (StringToNumber : string -> option Z) (clientConfig : RaindropConfig)
         (op : Operation) (w : World),
    exists res trace k,
      invoke MAX_RETRIES remote StringToNumber clientConfig op w
      = Some (res, w ++ trace)
      /\ (k <= 3)%nat
      /\ delays trace = firstn k [1000; 2000; 4000]
      /\ 0 <= total_delay trace <= 7000
      /\ logged trace
         = firstn k ["Request failed, retrying in 1000ms (attempt 1/3)...";
                     "Request failed, retrying in 2000ms (attempt 2/3)...";
                     "Request failed, retrying in 4000ms (attempt 3/3)..."]%string
      /\ (attempts trace = k \/ attempts trace = S k)
      /\ map __retryCount (requests trace)
         = firstn (attempts trace) [None; Some 1; Some 2; Some 3]%nat
      /\ Forall (same_request (request_of StringToNumber clientConfig op))
                (requests trace).
Proof.
  intros remote S2N cfg op w.
  destruct (invoke_course remote S2N cfg op w) as (k & Hk & _ & _ & Heq).
  set (c := request_of S2N cfg op) in *.
  set (o := remote (attempts w + k)%nat (attempt_config c k)) in *.
  assert (Hc : retryCount_of c = 0%nat) by apply request_of_fresh.
  assert (Hnone : __retryCount c = None) by apply retryCount_request_of.
  eexists. exists (retry_prefix MAX_RETRIES c k ++ last_attempt (attempt_config c k) o), k.
  split; [exact Heq|]. split; [exact Hk|].
  assert (Hd : delays (retry_prefix MAX_RETRIES c k ++ last_attempt (attempt_config c k) o)
               = firstn k [1000; 2000; 4000]).
  { rewrite delays_app, delays_last_attempt, app_nil_r, delays_retry_prefix, Hc.
    destruct k as [|[|[|[|k]]]]; try lia; reflexivity. }
  split; [exact Hd|]. split.
  { unfold total_delay. rewrite Hd.
    destruct k as [|[|[|[|k]]]]; try lia; cbn; lia. }
  split.
  { rewrite logged_app, logged_last_attempt, app_nil_r, logged_retry_prefix, Hc.
    destruct k as [|[|[|[|k]]]]; try lia; reflexivity. }
  assert (Hn : attempts (retry_prefix MAX_RETRIES c k ++ last_attempt (attempt_config c k) o)
               = (k + attempts (last_attempt (attempt_config c k) o))%nat)
    by (rewrite attempts_app, attempts_retry_prefix; reflexivity).
  split.
  { rewrite Hn. destruct o; cbn; lia. }
  split.
  { rewrite Hn, requests_app, requests_retry_prefix.
    destruct k as [|[|[|[|k]]]]; try lia; destruct o;
      cbn [seq map app last_attempt requests attempts length Nat.add firstn
           attempt_config set_retryCount __retryCount];
      rewrite ?Hnone, ?Hc; reflexivity. }
  rewrite requests_app, requests_retry_prefix. apply Forall_app. split.
  - apply Forall_same_request.
  - destruct o; cbn; repeat constructor; apply same_request_attempt_config.
Qed.

Lemma length_delays_course (budget : nat) (c : AxiosRequestConfig) (k : nat)
  (o : Outcome) :
  length (delays (retry_prefix budget c k ++ last_attempt (attempt_config c k) o)) = k.
Proof.
  rewrite delays_app, delays_last_attempt, app_nil_r, delays_retry_prefix,
    length_map, length_seq.
  reflexivity.
Qed.

(** X2.  The number of retries of an operation, which is the number of
    delays in its trace, is the number of retryable failures its attempts
    meet in a row, capped at three: every attempt before the last call of
    the adapter failed retryably, and the outcome of that last call is
    retryable only after three retries.  The operation ends on that
    outcome: with what it makes of the response when it is fulfilled, and
    with the classified message of the failure otherwise. *)
Theorem retries_follow_retryable_failures :
  forall (remote : nat -> AxiosRequestConfig -> Outcome)
         (StringToNumber : string -> option Z) (clientConfig : RaindropConfig)
         (op : Operation) (w : World),
    exists res trace,
      invoke MAX_RETRIES remote StringToNumber clientConfig op w
      = Some (res, w ++ trace)
      /\ (forall i, (i < length (delays trace))%nat ->
            retryable (remote (attempts w + i)%nat
                         (attempt_config (request_of StringToNumber clientConfig op) i))
            = true)
      /\ ((length (delays trace) < 3)%nat ->
          retryable (remote (attempts w + length (delays trace))%nat
                       (attempt_config (request_of StringToNumber clientConfig op)
                          (length (delays trace))))
          = false)
      /\ res = match remote (attempts w + length (delays trace))%nat
                       (attempt_config (request_of StringToNumber clientConfig op)
                          (length (delays trace))) with
               | Fulfilled r => result_of op r
               | o => Throw (JsError (formatError MAX_RETRIES
                        (error_of (attempt_config
                                     (request_of StringToNumber clientConfig op)
                                     (length (delays trace))) o)))
               end.
Proof.
  intros remote S2N cfg op w.
  destruct (invoke_course remote S2N cfg op w) as (k & Hk & Hfail & Hlast & Heq).
  eexists. eexists. split; [exact Heq|].
  rewrite length_delays_course.
  split; [exact Hfail|]. split; [|reflexivity].
  intros Hlt.
  destruct (retryable (remote (attempts w + k)%nat
                         (attempt_config (request_of S2N cfg op) k))) eqn:Hr;
    [|reflexivity].
  specialize (Hlast eq_refl). lia.
Qed.

Lemma headers_request_of (StringToNumber : string -> option Z)
  (clientConfig : RaindropConfig) (op : Operation) :
  headers (request_of StringToNumber clientConfig op)
  = [("Authorization", VStr ("Bearer " ++ apiToken clientConfig)%string);
     ("Content-Type", VStr "application/json")]
  /\ timeout (request_of StringToNumber clientConfig op) = 30000
  /\ baseURL (request_of StringToNumber clientConfig op)
     = match baseUrl clientConfig with
       | Some u => if String.eqb u "" then "https://api.raindrop.io/rest/v1"%string else u
       | None => "https://api.raindrop.io/rest/v1"%string
       end.
Proof. destruct op; repeat split. Qed.

(** X3.  Whatever the remote end does, every HTTP attempt of every
    operation, the retries included, carries the bearer token of the
    client in its [Authorization] header and the JSON content type, has
    the timeout of 30000 ms, and goes to the configured base URL, or to
    [https://api.raindrop.io/rest/v1] when none, or the empty string, was
    configured. *)
Theorem every_attempt_is_authorised :
  forall (remote : nat -> AxiosRequestConfig -> Outcome)
         (StringToNumber : string -> option Z) (clientConfig : RaindropConfig)
         (op : Operation) (w : World),
    exists res trace,
      invoke MAX_RETRIES remote StringToNumber clientConfig op w
      = Some (res, w ++ trace)
      /\ Forall (fun c =>
                   headers c
                   = [("Authorization", VStr ("Bearer " ++ apiToken clientConfig)%string);
                      ("Content-Type", VStr "application/json")]
                   /\ timeout c = 30000
                   /\ baseURL c
                      = match baseUrl clientConfig with
                        | Some u =>
                            if String.eqb u ""
                            then "https://api.raindrop.io/rest/v1"%string else u
                        | None => "https://api.raindrop.io/rest/v1"%string
                        end)
                (requests trace).
Proof.
  intros remote S2N cfg op w.
  destruct (invoke_course remote S2N cfg op w) as (k & _ & _ & _ & Heq).
  eexists. eexists. split; [exact Heq|].
  assert (Hsame : Forall (same_request (request_of S2N cfg op))
            (requests (retry_prefix MAX_RETRIES (request_of S2N cfg op) k
                       ++ last_attempt (attempt_config (request_of S2N cfg op) k)
                            (remote (attempts w + k)%nat
                               (attempt_config (request_of S2N cfg op) k))))).
  { rewrite requests_app, requests_retry_prefix. apply Forall_app. split.
    - apply Forall_same_request.
    - destruct (remote _ _); cbn; repeat constructor;
        apply same_request_attempt_config. }
  destruct (headers_request_of S2N cfg op) as (Hh & Ht & Hb).
  eapply Forall_impl; [|exact Hsame].
  intros c' (_ & _ & Hb' & Ht' & Hh' & _).
  rewrite Hh', Ht', Hb'. auto.
Qed.

Lemma retries_follow_retryable_failures_witness :
  exists res trace,
    invoke MAX_RETRIES flaky_remote no_number demo_client (GetRaindrop (VNum 7)) []
    = Some (res, [] ++ trace)
    /\ (forall i, (i < length (delays trace))%nat ->
          retryable (flaky_remote (attempts [] + i)%nat
                       (attempt_config
                          (request_of no_number demo_client (GetRaindrop (VNum 7))) i))
          = true)
    /\ ((length (delays trace) < 3)%nat ->
        retryable (flaky_remote (attempts [] + length (delays trace))%nat
                     (attempt_config
                        (request_of no_number demo_client (GetRaindrop (VNum 7)))
                        (length (delays trace))))
        = false)
    /\ res = match flaky_remote (attempts [] + length (delays trace))%nat
                     (attempt_config
                        (request_of no_number demo_client (GetRaindrop (VNum 7)))
                        (length (delays trace))) with
             | Fulfilled r => result_of (GetRaindrop (VNum 7)) r
             | o => Throw (JsError (formatError MAX_RETRIES
                      (error_of (attempt_config
                                   (request_of no_number demo_client (GetRaindrop (VNum 7)))
                                   (length (delays trace))) o)))
             end.
Proof.
  exact (retries_follow_retryable_failures flaky_remote no_number demo_client
           (GetRaindrop (VNum 7)) []).
Defined.
(* ================================================================== *)
(** ** Further properties: the classified messages *)
(* ================================================================== *)





(** X6.  A response with a status of 600 or above is classified terminal
    and yet formatted as a server error: the operation makes the one
    attempt, no retry, and throws the server-error message, which says
    that the call was already retried. *)
Theorem status_above_599_not_retried :
  forall (budget : nat) (remote : nat -> AxiosRequestConfig -> Outcome)
         (StringToNumber : string -> option Z) (clientConfig : RaindropConfig)
         (op : Operation) (w : World) (msg : string) (s : Z) (b : Value),
    600 <= s ->
    remote (attempts w) (request_of StringToNumber clientConfig op)
    = Rejected msg (Some {| status := s; body := b |}) ->
    invoke budget remote StringToNumber clientConfig op w
    = Some (Throw (JsError
              ("Raindrop.io server error (" ++ number_to_string s
               ++ "): The service is temporarily unavailable. Already retried "
               ++ number_to_string (Z.of_nat budget) ++ " times.")%string),
            w ++ [EvRequest (request_of StringToNumber clientConfig op)]).
Proof.
  intros budget remote S2N cfg op w msg s b Hs Ho.
  assert (Hcls : isRetryableError
                   {| message := msg; config := None;
                      response := Some {| status := s; body := b |} |} = false).
  { unfold isRetryableError. cbn [response status].
    destruct (Z.eqb_spec s 429); [lia|]. destruct (Z.ltb_spec s 600); [lia|].
    rewrite andb_false_r. reflexivity. }
  rewrite (invoke_retry_then_failure budget remote S2N cfg op w 0).
  - cbn [attempt_config]. rewrite Nat.add_0_r, Ho.
    unfold retry_trace. cbn [retry_prefix app attempt_config].
    f_equal. f_equal. f_equal. f_equal.
    unfold formatError, error_of. cbn [response status body].
    destruct (Z.eqb_spec s 400); [lia|]. destruct (Z.eqb_spec s 401); [lia|].
    destruct (Z.eqb_spec s 403); [lia|]. destruct (Z.eqb_spec s 404); [lia|].
    destruct (Z.eqb_spec s 429); [lia|]. destruct (Z.leb_spec 500 s); [|lia].
    reflexivity.
  - lia.
  - intros i Hi. lia.
  - cbn [attempt_config]. rewrite Nat.add_0_r, Ho. reflexivity.
  - left. cbn [attempt_config]. rewrite Nat.add_0_r, Ho. exact Hcls.
Qed.

Lemma status_above_599_not_retried_witness :
  invoke MAX_RETRIES
    (fun _ _ => Rejected "Request failed with status code 600"
                  (Some {| status := 600; body := VNull |}))
    no_number demo_client GetUser []
  = Some (Throw (JsError
      "Raindrop.io server error (600): The service is temporarily unavailable. Already retried 3 times."),
          [EvRequest (request_of no_number demo_client GetUser)]).
Proof.
  apply (status_above_599_not_retried MAX_RETRIES
           (fun _ _ => Rejected "Request failed with status code 600"
                         (Some {| status := 600; body := VNull |}))
           no_number demo_client GetUser []
           "Request failed with status code 600" 600 VNull).
  - lia.
  - reflexivity.
Defined.
(* ================================================================== *)
(** ** Further properties: what the methods send and return *)
(* ================================================================== *)

Lemma get_without (k k' : string) (o : Obj) :
  k <> k' -> get k (without k' o) = get k o.
Proof.
  intros Hne. induction o as [|[k0 v] o IH]; [reflexivity|].
  simpl. destruct (String.eqb_spec k' k0) as [->|Hk'].
  - rewrite IH. destruct (String.eqb_spec k k0); [contradiction|reflexivity].
  - simpl. rewrite IH. reflexivity.
Qed.

Lemma get_without_same (k : string) (o : Obj) :
  get k (without k o) = VUndefined.
Proof.
  induction o as [|[k0 v] o IH]; [reflexivity|].
  simpl. destruct (String.eqb_spec k k0) as [->|Hk]; [exact IH|].
  simpl. destruct (String.eqb_spec k k0); [contradiction|exact IH].
Qed.

(** X7.  The bodies and the query depend on the declared fields of their
    input only: two inputs that agree on those fields give the same
    body, so a key the interface does not declare is never forwarded.  In
    particular the [id] that the update tools strip from the argument bag
    would not have been sent either way. *)
Theorem undeclared_keys_are_ignored :
  forall o o' : Obj,
    ((forall f, In f raindrop_update_fields -> get f o = get f o') ->
     updateRaindrop_data o = updateRaindrop_data o')
    /\ ((forall f, In f collection_update_fields -> get f o = get f o') ->
        updateCollection_data o = updateCollection_data o')
    /\ ((forall f, In f ("link" :: "collectionId" :: raindrop_create_fields)%string ->
           get f o = get f o') ->
        createRaindrop_data o = createRaindrop_data o')
    /\ ((forall f, In f ("title" :: collection_create_fields)%string ->
           get f o = get f o') ->
        createCollection_data o = createCollection_data o')
    /\ (forall StringToNumber : string -> option Z,
           (forall f, In f ("collectionId" :: search_query_fields)%string ->
              get f o = get f o') ->
           searchRaindrops_query StringToNumber o
           = searchRaindrops_query StringToNumber o'
           /\ searchRaindrops_path o = searchRaindrops_path o')
    /\ updateRaindrop_data (without "id" o) = updateRaindrop_data o
    /\ updateCollection_data (without "id" o) = updateCollection_data o.
Proof.
  intros o o'.
  assert (Hid : forall f, f <> "id"%string -> get f (without "id" o) = get f o)
    by (intros f Hf; apply get_without; exact Hf).
  repeat match goal with |- _ /\ _ => split end.
  - intros H. unfold updateRaindrop_data.
    rewrite !(H "title"%string), !(H "excerpt"%string), !(H "note"%string),
      !(H "tags"%string), !(H "important"%string), !(H "collectionId"%string)
      by (cbn; tauto).
    reflexivity.
  - intros H. unfold updateCollection_data.
    rewrite !(H "title"%string), !(H "description"%string), !(H "public"%string),
      !(H "view"%string), !(H "parent"%string) by (cbn; tauto).
    reflexivity.
  - intros H. unfold createRaindrop_data.
    rewrite !(H "link"%string), !(H "title"%string), !(H "excerpt"%string),
      !(H "note"%string), !(H "tags"%string), !(H "important"%string),
      !(H "collectionId"%string) by (cbn; tauto).
    reflexivity.
  - intros H. unfold createCollection_data.
    rewrite !(H "title"%string), !(H "description"%string), !(H "public"%string),
      !(H "view"%string), !(H "parent"%string) by (cbn; tauto).
    reflexivity.
  - intros S2N H. unfold searchRaindrops_query, searchRaindrops_path.
    rewrite !(H "collectionId"%string), !(H "search"%string), !(H "sort"%string),
      !(H "perpage"%string), !(H "page"%string), !(H "tag"%string)
      by (cbn; tauto).
    split; reflexivity.
  - unfold updateRaindrop_data. rewrite !Hid by discriminate. reflexivity.
  - unfold updateCollection_data. rewrite !Hid by discriminate. reflexivity.
Qed.

Lemma undeclared_keys_are_ignored_witness :
  updateRaindrop_data [("title", VStr "t"); ("link", VStr "https://example.com");
                       ("colour", VStr "red")]
  = updateRaindrop_data [("title", VStr "t")].
Proof.
  apply (proj1 (undeclared_keys_are_ignored
                  [("title", VStr "t"); ("link", VStr "https://example.com");
                   ("colour", VStr "red")]
                  [("title", VStr "t")])).
  intros f Hf. cbn in Hf.
  destruct Hf as [<-|[<-|[<-|[<-|[<-|[<-|[]]]]]]]; reflexivity.
Defined.

(** X8.  The body of [createRaindrop] starts with [link] and
    [pleaseParse], whatever the input; of the optional fields it has
    exactly those that pass the test of the source: [important] when it is
    defined, [title], [excerpt], [note] and [tags] when they are truthy;
    and [collection] comes last when [collectionId] is truthy and not 0.
    So an empty title, excerpt or note is left out as if it were absent,
    while [important: false] and an empty [tags] array are sent. *)
Theorem create_bookmark_drops_falsy_fields :
  forall params : Obj,
    keys (createRaindrop_data params)
    = ("link" :: "pleaseParse"
       :: filter (copied_on_create_raindrop params) raindrop_create_fields
       ++ (if is_not_zero (or_else (get "collectionId" params) (VNum 0))
           then ["collection"] else []))%string
    /\ Forall (fun f =>
                 get f (createRaindrop_data params)
                 = if copied_on_create_raindrop params f
                   then get f params else VUndefined)
              raindrop_create_fields
    /\ get "link" (createRaindrop_data params) = get "link" params
    /\ (forall link : Value,
          createRaindrop_data
            [("link", link); ("title", VStr ""); ("excerpt", VStr "");
             ("note", VStr ""); ("tags", VArr []); ("important", VBool false)]
          = [("link", link); ("pleaseParse", VObj []); ("tags", VArr []);
             ("important", VBool false)]).
Proof.
  intros params. unfold createRaindrop_data, raindrop_create_fields,
    copied_on_create_raindrop.
  repeat match goal with |- _ /\ _ => split end.
  - cbn [filter String.eqb Ascii.eqb Bool.eqb].
    destruct (is_not_zero _); split_truthy; split_defined; reflexivity.
  - repeat constructor; cbn [String.eqb Ascii.eqb Bool.eqb];
      destruct (is_not_zero _); split_truthy; split_defined;
      cbn; congruence.
  - destruct (is_not_zero _); split_truthy; split_defined; reflexivity.
  - intros link. reflexivity.
Qed.

(** X9.  When the first attempt is fulfilled, an operation makes that one
    attempt and nothing else.  The operations that return nothing resolve
    to [undefined] whatever the body; the others throw a TypeError exactly
    when the body is [null] or [undefined], and otherwise return what the
    body holds under the envelope key ([item], [items], [user]; [items]
    and [count] for a search), which is [undefined], not an error, when
    the body lacks the key or is not an object. *)
Theorem fulfilled_response_is_projected :
  forall (remote : nat -> AxiosRequestConfig -> Outcome)
         (StringToNumber : string -> option Z) (clientConfig : RaindropConfig)
         (op : Operation) (w : World) (r : AxiosResponse),
    remote (attempts w) (request_of StringToNumber clientConfig op) = Fulfilled r ->
    invoke MAX_RETRIES remote StringToNumber clientConfig op w
    = Some (result_of op r, w ++ [EvRequest (request_of StringToNumber clientConfig op)])
    /\ (returns_nothing op = true -> result_of op r = Return VUndefined)
    /\ (returns_nothing op = false ->
        ((exists k, result_of op r = Throw (JsTypeError k))
         <-> nullish (body r) = true))
    /\ (nullish (body r) = false ->
        (forall k, envelope_key op = Some k ->
                   result_of op r = Return (opt_get (body r) k))
        /\ (forall params, op = SearchRaindrops params ->
              result_of op r
              = Return (VObj [("items", opt_get (body r) "items");
                              ("count", opt_get (body r) "count")]))).
Proof.
  intros remote S2N cfg op w r Ho. split; [|split; [|split]].
  - rewrite (invoke_retry_then_success MAX_RETRIES remote S2N cfg op w 0 r).
    + reflexivity.
    + unfold MAX_RETRIES. lia.
    + intros i Hi. lia.
    + rewrite Nat.add_0_r. exact Ho.
  - destruct op; try discriminate; reflexivity.
  - intros Hv. unfold result_of. split.
    + intros (k & Hk). destruct (body r); try reflexivity;
        destruct op; discriminate.
    + intros Hn. destruct (body r); try discriminate;
        destruct op; try discriminate; eexists; reflexivity.
  - intros Hn. split.
    + intros k Hk. unfold result_of.
      destruct (body r); try discriminate;
        destruct op; try discriminate; injection Hk as <-; reflexivity.
    + intros params ->. unfold result_of.
      destruct (body r); try discriminate; reflexivity.
Qed.

Lemma fulfilled_response_is_projected_witness :
  invoke MAX_RETRIES
    (fun _ _ => Fulfilled {| status := 200; body := VObj [("result", VBool true)] |})
    no_number demo_client (GetRaindrop (VNum 7)) []
  = Some (Return VUndefined,
          [EvRequest (request_of no_number demo_client (GetRaindrop (VNum 7)))]).
Proof.
  apply (fulfilled_response_is_projected
           (fun _ _ => Fulfilled {| status := 200;
                                    body := VObj [("result", VBool true)] |})
           no_number demo_client (GetRaindrop (VNum 7)) []
           {| status := 200; body := VObj [("result", VBool true)] |}).
  reflexivity.
Defined.

(** X17.  The shape of the request of every operation: the method is one
    of [get], [post], [put] and [delete]; a [get] never carries a body;
    a [post] or a [put] always carries an object as its body; query
    parameters travel with a search and with nothing else; the only
    [delete] with a body is the one of a tag; and the path is rooted. *)
Theorem request_shapes :
  forall (StringToNumber : string -> option Z) (clientConfig : RaindropConfig)
         (op : Operation),
    In (method (request_of StringToNumber clientConfig op))
       ["get"; "post"; "put"; "delete"]%string
    /\ (method (request_of StringToNumber clientConfig op) = "get"%string ->
        data (request_of StringToNumber clientConfig op) = VUndefined)
    /\ (In (method (request_of StringToNumber clientConfig op)) ["post"; "put"]%string ->
        exists o, data (request_of StringToNumber clientConfig op) = VObj o)
    /\ (params (request_of StringToNumber clientConfig op) <> VUndefined
        <-> exists p, op = SearchRaindrops p)
    /\ (method (request_of StringToNumber clientConfig op) = "delete"%string ->
        data (request_of StringToNumber clientConfig op) <> VUndefined ->
        exists tagName, op = DeleteTag tagName)
    /\ String.prefix "/" (url (request_of StringToNumber clientConfig op)) = true.
Proof.
  intros S2N cfg op.
  destruct op; cbn;
    repeat match goal with |- _ /\ _ => split end;
    try tauto; try discriminate; try reflexivity;
    try (intros _; eexists; reflexivity);
    try (intros _ H; contradiction);
    try (intros _ _; eexists; reflexivity);
    try (split; [intros H; contradiction|intros (p & Hp); discriminate]);
    try (split; [intros _; eexists; reflexivity|discriminate]);
    try (intros [H|[H|[]]]; discriminate).
Qed.

Lemma request_shapes_witness :
  exists o,
    data (request_of no_number demo_client
            (CreateCollection [("title", VStr "Papers")]))
    = VObj o.
Proof.
  apply (request_shapes no_number demo_client
           (CreateCollection [("title", VStr "Papers")])).
  cbn. tauto.
Defined.
(* ================================================================== *)
(** ** Further properties: the call handler *)
(* ================================================================== *)

Lemma total_delay_app (w w' : World) :
  total_delay (w ++ w') = total_delay w + total_delay w'.
Proof.
  unfold total_delay. rewrite delays_app.
  induction (delays w) as [|d l IH]; cbn; [reflexivity|]. rewrite IH. lia.
Qed.

Section CallHandler.

Variable remote : nat -> AxiosRequestConfig -> Outcome.
Variable StringToNumber : string -> option Z.
Variable JSON_stringify : Value -> string.
Variable typeErrorMessage : string -> string.
Variable API_TOKEN : string.

Local Abbreviation handle :=
  (handleCallTool remote StringToNumber JSON_stringify typeErrorMessage API_TOKEN).
Local Abbreviation run_tool :=
  (callTool remote StringToNumber JSON_stringify API_TOKEN).
Local Abbreviation run_op :=
  (invoke MAX_RETRIES remote StringToNumber (client API_TOKEN)).

(** What one operation costs at most. *)
Lemma invoke_bounds (op : Operation) (w : World) :
  exists res trace,
    run_op op w = Some (res, w ++ trace)
    /\ (attempts trace <= 4)%nat
    /\ 0 <= total_delay trace <= 7000.
Proof.
  destruct (invoke_course remote StringToNumber (client API_TOKEN) op w)
    as (k & Hk & _ & _ & Heq).
  eexists. eexists. split; [exact Heq|]. split.
  - rewrite attempts_app, attempts_retry_prefix.
    destruct (remote _ _); cbn; lia.
  - unfold total_delay.
    rewrite delays_app, delays_last_attempt, app_nil_r, delays_retry_prefix,
      request_of_fresh.
    destruct k as [|[|[|[|k]]]]; try lia; cbn; lia.
Qed.

(** The switch, with everything it can do. *)
Lemma callTool_bounds (name : string) (args : option Obj) (w : World) :
  exists res trace,
    run_tool name args w = Some (res, w ++ trace)
    /\ (attempts trace <= 4)%nat
    /\ 0 <= total_delay trace <= 7000
    /\ match res with
       | Return result => exists t, content result = [ {| type := "text"; text := t |} ]
       | Throw _ => True
       end.
Proof.
  destruct (callTool_cases remote StringToNumber JSON_stringify API_TOKEN name args w)
    as [(op & _ & ->)|[(_ & k & ->)|(_ & ->)]].
  - unfold dispatched.
    destruct (invoke_bounds op w) as (res & trace & -> & Hn & Hd).
    destruct res; eexists; exists trace; repeat split; try reflexivity;
      try exact Hn; try apply Hd.
    eexists. reflexivity.
  - eexists; exists []. rewrite app_nil_r. repeat split; cbn; lia.
  - eexists; exists []. rewrite app_nil_r. repeat split; cbn; try lia.
    eexists. reflexivity.
Qed.

(** X10.  In either state and for every request and every behaviour of
    the remote end, the call handler answers with a response that has
    exactly one content block, of type [text]; and answering costs at
    most four HTTP attempts and at most 7000 ms of backoff. *)
Theorem call_is_answered_within_bounds :
  forall (shuttingDown : bool) (req : CallToolRequest) (w : World),
    exists result trace t,
      handle shuttingDown req w = Some (Return result, w ++ trace)
      /\ content result = [ {| type := "text"; text := t |} ]
      /\ (attempts trace <= 4)%nat
      /\ 0 <= total_delay trace <= 7000.
Proof.
  intros [|] req w.
  - exists (failure shutdown_text), [], (Some shutdown_text).
    rewrite app_nil_r. repeat split; cbn; lia.
  - unfold handleCallTool, try_catch.
    destruct (callTool_bounds (name req) (arguments req) w)
      as ([result|e] & trace & -> & Hn & Hd & Hc).
    + destruct Hc as (t & Ht). exists result, trace, t. repeat split; auto; apply Hd.
    + eexists. exists trace. eexists. repeat split; auto; apply Hd.
Qed.


(** X12.  What the list handler advertises is what the call handler
    dispatches: while running, the list handler returns the catalogue of
    fourteen names; a call that has arguments runs an operation of the
    client exactly when its name is in that catalogue, and is answered as
    an unknown tool, without any remote call, exactly when it is not. *)
Theorem catalogue_matches_switch :
  forall (name : string) (o : Obj) (w : World),
    handleListTools false w = Some (Return tools, w)
    /\ (In name tools <-> exists op, selected name (Some o) = Some op)
    /\ (In name tools ->
        exists op,
          selected name (Some o) = Some op
          /\ run_tool name (Some o) w
             = dispatched remote StringToNumber JSON_stringify API_TOKEN op w)
    /\ (~ In name tools ->
        run_tool name (Some o) w
        = Some (Return (failure (unknownToolText name)), w)).
Proof.
  intros name o w.
  assert (Hin : In name tools -> exists op, selected name (Some o) = Some op).
  { unfold tools. cbn [In]. intros H.
    repeat (destruct H as [<-|H]; [eexists; reflexivity|]). contradiction. }
  split; [reflexivity|]. split; [|split].
  - split; [exact Hin|]. intros (op & Hop).
    destruct (in_dec string_dec name tools) as [H|H]; [exact H|].
    rewrite (selected_unknown _ _ (not_in_tools _ H)) in Hop. discriminate.
  - intros H. destruct (Hin H) as (op & Hop). exists op. split; [exact Hop|].
    destruct (callTool_cases remote StringToNumber JSON_stringify API_TOKEN
                name (Some o) w)
      as [(op' & Hsel & ->)|[(Hnone & _)|(Hnone & _)]].
    + congruence.
    + congruence.
    + rewrite (selected_unknown _ _ Hnone) in Hop. discriminate.
  - intros H. apply not_in_tools in H.
    destruct (callTool_cases remote StringToNumber JSON_stringify API_TOKEN
                name (Some o) w)
      as [(op' & Hsel & _)|[(_ & k & Hk)|(_ & ->)]]; [| |reflexivity].
    + rewrite (selected_unknown _ _ H) in Hsel. discriminate.
    + exfalso. revert Hk. unfold callTool. revert H. unfold tools. cbn [existsb].
      intros H. repeat (apply orb_false_iff in H; destruct H as [? H]).
      repeat match goal with
             | E : String.eqb name _ = false |- _ => rewrite E; clear E
             end.
      discriminate.
Qed.

(** X13.  A call without argument bag: the ten tools that read an
    argument are answered with an error response built from the engine's
    TypeError, and no remote call is made; [search_bookmarks] runs as with
    an empty bag; and [list_collections], [list_tags] and [get_user_info]
    ignore their arguments altogether. *)
Theorem call_without_arguments :
  forall w : World,
    Forall (fun name =>
              exists k,
                handle false {| name := name; arguments := None |} w
                = Some (Return (failure ("Error: " ++ typeErrorMessage k)), w))
           ["get_bookmark"; "create_bookmark"; "update_bookmark"; "delete_bookmark";
            "get_collection"; "create_collection"; "update_collection";
            "delete_collection"; "rename_tag"; "delete_tag"]%string
    /\ run_tool "search_bookmarks" None w = run_tool "search_bookmarks" (Some []) w
    /\ Forall (fun name => forall args, run_tool name args w = run_tool name None w)
              ["list_collections"; "list_tags"; "get_user_info"]%string.
Proof.
  intros w. split; [|split].
  - repeat constructor; eexists; reflexivity.
  - reflexivity.
  - repeat constructor; intros args; reflexivity.
Qed.

End CallHandler.


Lemma catalogue_matches_switch_witness :
  exists op,
    selected "rename_tag" (Some [("oldName", VStr "ml"); ("newName", VStr "ai")])
    = Some op
    /\ callTool down_remote no_number no_rendering "token" "rename_tag"
         (Some [("oldName", VStr "ml"); ("newName", VStr "ai")]) []
       = dispatched down_remote no_number no_rendering "token" op [].
Proof.
  apply (catalogue_matches_switch down_remote no_number no_rendering "token"
           "rename_tag" [("oldName", VStr "ml"); ("newName", VStr "ai")] []).
  cbn. tauto.
Defined.
(* ================================================================== *)
(** ** Further properties: the life of the process *)
(* ================================================================== *)

Lemma run_exited (events : list ProcessEvent) (p : Process) (x : Exit) :
  exited p = Some x -> run events p = p.
Proof.
  intros Hx. induction events as [|e events IH]; [reflexivity|].
  cbn [run fold_left]. unfold step at 2. rewrite Hx. exact IH.
Qed.

Lemma step_benign (e : ProcessEvent) (p : Process) :
  benign e = true -> exited p = None -> timers p = [] ->
  exited (step e p) = None
  /\ timers (step e p) = []
  /\ isShuttingDown (step e p) = isShuttingDown p
  /\ now p <= now (step e p)
  /\ exists more, stderr (step e p) = stderr p ++ more.
Proof.
  intros Hb Hx Ht. unfold step. rewrite Hx.
  destruct e as [signal|dt|[|] errno|errno|]; try discriminate; cbn in Hb.
  - unfold elapse. rewrite Ht. cbn. repeat split; auto; try lia.
    exists []. rewrite app_nil_r. reflexivity.
  - apply negb_true_iff in Hb. rewrite Hb. cbn. repeat split; auto; try lia.
    eexists. reflexivity.
  - apply negb_true_iff in Hb. rewrite Hb. cbn. repeat split; auto; try lia.
    eexists. reflexivity.
  - cbn. repeat split; auto; try lia. eexists. reflexivity.
Qed.

(** X14.  A running process without pending timer that meets only benign
    events (time passing, unhandled rejections, and stdout errors or
    uncaught exceptions other than a broken pipe) stays alive and keeps
    serving: it does not exit, the shutdown flag keeps its value, no timer
    is armed, the clock does not go back, and stderr only grows. *)
Theorem benign_events_keep_the_process_alive :
  forall (events : list ProcessEvent) (p : Process),
    forallb benign events = true ->
    exited p = None -> timers p = [] ->
    exited (run events p) = None
    /\ isShuttingDown (run events p) = isShuttingDown p
    /\ timers (run events p) = []
    /\ now p <= now (run events p)
    /\ exists more, stderr (run events p) = stderr p ++ more.
Proof.
  induction events as [|e events IH]; intros p Hb Hx Ht.
  - cbn. repeat split; auto; try lia. exists []. rewrite app_nil_r. reflexivity.
  - cbn [forallb] in Hb. apply andb_true_iff in Hb as [He Hb].
    destruct (step_benign e p He Hx Ht) as (Hx' & Ht' & Hf' & Hn' & more1 & Hs').
    destruct (IH (step e p) Hb Hx' Ht') as (Hx2 & Hf2 & Ht2 & Hn2 & more2 & Hs2).
    cbn [run fold_left]. fold (run events (step e p)).
    repeat split; auto; try congruence; try lia.
    exists (more1 ++ more2). rewrite Hs2, Hs', app_assoc. reflexivity.
Qed.

Lemma benign_events_keep_the_process_alive_witness :
  exited (run [UncaughtException "ECONNRESET"; UnhandledRejection; Elapse 60000;
               StreamError Stdout "EAGAIN"] (start (Some "token") true))
  = None.
Proof.
  apply (benign_events_keep_the_process_alive
           [UncaughtException "ECONNRESET"; UnhandledRejection; Elapse 60000;
            StreamError Stdout "EAGAIN"] (start (Some "token") true));
    reflexivity.
Defined.

Lemma step_exit_code (e : ProcessEvent) (p : Process) (x : Exit) :
  exited p = None -> exited (step e p) = Some x ->
  (code x = 0 \/ code x = 1)
  /\ (code x = 1 -> stderr_failed e = true)
  /\ now p <= at_ms x.
Proof.
  intros Hp. unfold step. rewrite Hp.
  destruct e as [signal|dt|[|] errno|errno|]; cbn;
    try (destruct (String.eqb errno "EPIPE"); cbn);
    try (unfold elapse; destruct (next_due (timers p)) as [d|]; cbn;
         [destruct (d <=? now p + Z.max 0 dt); cbn|]);
    rewrite ?Hp; try discriminate;
    intros H; injection H as <-; cbn; repeat split; auto; try lia;
    try discriminate.
Qed.

Lemma step_clock (e : ProcessEvent) (p : Process) : now p <= now (step e p).
Proof.
  unfold step. destruct (exited p); [lia|].
  destruct e as [signal|dt|[|] errno|errno|]; cbn; try lia;
    try (destruct (String.eqb errno "EPIPE"); cbn; lia).
  unfold elapse. destruct (next_due (timers p)) as [d|]; cbn; [|lia].
  destruct (d <=? now p + Z.max 0 dt); cbn; lia.
Qed.

(** X15.  However a live process comes to its end, the exit code is 0 or
    1, and it is 1 only when stderr itself failed with an error other
    than a broken pipe; the exit is not dated before the state the run
    started from. *)
Theorem exit_code_is_zero_unless_stderr_failed :
  forall (events : list ProcessEvent) (p : Process) (x : Exit),
    exited p = None ->
    exited (run events p) = Some x ->
    (code x = 0 \/ code x = 1)
    /\ (code x = 1 -> existsb stderr_failed events = true)
    /\ now p <= at_ms x.
Proof.
  induction events as [|e events IH]; intros p x Hp Hx.
  - cbn in Hx. congruence.
  - cbn [run fold_left] in Hx. fold (run events (step e p)) in Hx.
    cbn [existsb].
    destruct (exited (step e p)) as [y|] eqn:Hy.
    + rewrite (run_exited events _ y Hy) in Hx. rewrite Hy in Hx.
      injection Hx as ->.
      destruct (step_exit_code e p x Hp Hy) as (Hc & H1 & Hn).
      repeat split; auto. intros H. rewrite (H1 H). reflexivity.
    + destruct (IH (step e p) x Hy Hx) as (Hc & H1 & Hn).
      pose proof (step_clock e p) as Hclock.
      repeat split; auto; try lia.
      intros H. rewrite (H1 H). apply orb_true_r.
Qed.

Lemma exit_code_is_zero_unless_stderr_failed_witness :
  exited (run [Elapse 1500; StreamError Stderr "EIO"; Elapse 10]
              (start (Some "token") true))
  = Some {| code := 1; at_ms := 1500 |}
  /\ existsb stderr_failed [Elapse 1500; StreamError Stderr "EIO"; Elapse 10] = true.
Proof.
  split; [reflexivity|].
  destruct (exit_code_is_zero_unless_stderr_failed
              [Elapse 1500; StreamError Stderr "EIO"; Elapse 10]
              (start (Some "token") true) {| code := 1; at_ms := 1500 |}
              eq_refl eq_refl) as (_ & H & _).
  exact (H eq_refl).
Defined.

(** X16.  The process comes up exactly when the token is set to a
    non-empty string and the transport connects; it then runs with the
    shutdown flag down and no timer pending, having announced itself on
    stderr.  Otherwise it exits at once with code 1, after one line on
    stderr; an empty token is refused like a missing one. *)
Theorem start_requires_token_and_transport :
  forall (RAINDROP_API_TOKEN : option string) (connected : bool),
    (exited (start RAINDROP_API_TOKEN connected) = None
     <-> (exists token, RAINDROP_API_TOKEN = Some token /\ token <> ""%string)
         /\ connected = true)
    /\ (exited (start RAINDROP_API_TOKEN connected) = None
        \/ exited (start RAINDROP_API_TOKEN connected)
           = Some {| code := 1; at_ms := 0 |})
    /\ isShuttingDown (start RAINDROP_API_TOKEN connected) = false
    /\ timers (start RAINDROP_API_TOKEN connected) = []
    /\ length (stderr (start RAINDROP_API_TOKEN connected)) = 1%nat
    /\ (exited (start RAINDROP_API_TOKEN connected) = None ->
        stderr (start RAINDROP_API_TOKEN connected)
        = ["H9K Raindrop MCP Server v1.0.2 running on stdio"%string])
    /\ start (Some ""%string) connected = start None connected.
Proof.
  intros token connected. unfold start, main.
  destruct token as [t|].
  - destruct (String.eqb_spec t "") as [->|Hne].
    + cbn. split.
      * split; [discriminate|]. intros [(t' & Ht' & Hne') _]. congruence.
      * repeat split; auto. discriminate.
    + destruct connected; cbn.
      * split.
        -- split; [|reflexivity]. intros _. split; [exists t; auto|reflexivity].
        -- repeat split; auto.
      * split.
        -- split; [discriminate|]. intros [_ Hc]. discriminate.
        -- repeat split; auto. discriminate.
  - cbn. split.
    + split; [discriminate|]. intros [(t' & Ht' & _) _]. discriminate.
    + repeat split; auto. discriminate.
Qed.

Lemma start_requires_token_and_transport_witness :
  exited (start (Some "token"%string) true) = None.
Proof.
  apply (proj1 (start_requires_token_and_transport (Some "token"%string) true)).
  split; [|reflexivity]. exists "token"%string. split; [reflexivity|discriminate].
Defined.
